(** * ExpenseTracker: a shallow embedding of [expense_tracker.py]

    The development follows the source file function by function:
    the date parser ([parse_date_input], built on [datetime.strptime]),
    the category-name table ([build_category_name_mapping],
    [normalize_category_name]), the ledger ([load_expense_data],
    [add_new_expense], [save_expense_data]), the category analysis
    ([analyze_categories]) and the filter ([filter_expenses]).

    Conventions.
    - A Python [str] is a [string] whose characters are code points below
      256; [strip] and [lower] follow Python on that range.
    - A [datetime] carries year, month and day.  Every value the parser
      builds is at midnight, and [datetime.now()] is never before the
      midnight of its own day, so [expense_date > datetime.now()] holds
      exactly when the day of [expense_date] is after the day of [now]:
      comparing days is exact.
    - Amounts are IEEE binary64 values ([spec_float] with precision 53
      and maximal exponent 1024); [S754_nan] is pandas' missing amount.
    - Logger calls are not modelled; [print] calls are, where an
      operation's result is told apart by them.
    - A pandas column has a dtype beside its values.  That of the
      [Date] and of the [Amount] column is followed beside the tracker
      ([dtypes], [reached_from]), for the calls that raise on a column
      of dtype object. *)

From Stdlib Require Import ZArith List String Ascii Bool Lia Permutation Sorted.
From Stdlib Require Import Floats.SpecFloat.
From Stdlib Require Import Structures.OrderedTypeEx.
From stdpp Require Import gmap strings.
Import ListNotations.

#[local] Open Scope string_scope.
#[local] Open Scope Z_scope.
#[local] Unset Default Proof Using.

(** ** Python strings *)

Module PyStr.

Definition code (c : ascii) : Z := Z.of_N (N_of_ascii c).

Definition in_range (lo hi : Z) (c : ascii) : bool :=
  (lo <=? code c) && (code c <=? hi).

(** [str.isspace] on code points below 256: TAB..CR, FS..US, SPACE,
    NEL and NBSP. *)
Definition is_space (c : ascii) : bool :=
  in_range 9 13 c || in_range 28 32 c || (code c =? 133) || (code c =? 160).

Definition is_digit (c : ascii) : bool := in_range 48 57 c.

(** [str.lower] on one code point below 256: A-Z and the Latin-1
    capitals (all of 192..222 but the multiplication sign 215). *)
Definition lower_char (c : ascii) : ascii :=
  if in_range 65 90 c || (in_range 192 222 c && negb (code c =? 215))
  then ascii_of_N (N_of_ascii c + 32)
  else c.

Fixpoint lower (s : string) : string :=
  match s with
  | EmptyString => EmptyString
  | String c r => String (lower_char c) (lower r)
  end.

Fixpoint lstrip (s : string) : string :=
  match s with
  | EmptyString => EmptyString
  | String c r => if is_space c then lstrip r else s
  end.

Fixpoint rstrip (s : string) : string :=
  match s with
  | EmptyString => EmptyString
  | String c r =>
      match rstrip r with
      | EmptyString => if is_space c then EmptyString else String c EmptyString
      | r' => String c r'
      end
  end.

(** [str.strip()] *)
Definition strip (s : string) : string := rstrip (lstrip s).

Fixpoint keep (p : ascii -> bool) (s : string) : string :=
  match s with
  | EmptyString => EmptyString
  | String c r => if p c then String c (keep p r) else keep p r
  end.

(** Truth value of a [str]: non-empty. *)
Definition nonempty (s : string) : bool :=
  match s with EmptyString => false | _ => true end.

End PyStr.

(** ** Calendar dates *)

Record datetime := mkdate { year : Z; month : Z; day : Z }.

Definition is_leap (y : Z) : bool :=
  (y mod 4 =? 0) && (negb (y mod 100 =? 0) || (y mod 400 =? 0)).

Definition days_in_month (y m : Z) : Z :=
  if m =? 2 then (if is_leap y then 29 else 28)
  else if (m =? 4) || (m =? 6) || (m =? 9) || (m =? 11) then 30
  else 31.

(** What the [datetime] constructor accepts ([MINYEAR] = 1,
    [MAXYEAR] = 9999); anything else is a [ValueError]. *)
Definition valid_ymd (y m d : Z) : bool :=
  (1 <=? y) && (y <=? 9999) && (1 <=? m) && (m <=? 12)
  && (1 <=? d) && (d <=? days_in_month y m).

Definition valid_date (d : datetime) : Prop :=
  valid_ymd (year d) (month d) (day d) = true.

Definition date_eqb (a b : datetime) : bool :=
  (year a =? year b) && (month a =? month b) && (day a =? day b).

Definition date_leb (a b : datetime) : bool :=
  (year a <? year b)
  || ((year a =? year b)
      && ((month a <? month b) || ((month a =? month b) && (day a <=? day b)))).

Definition date_ltb (a b : datetime) : bool := date_leb a b && negb (date_eqb a b).

(** A date object is a plain [datetime.datetime] or a pandas
    [Timestamp]; the latter is a subclass of the former and the only one
    of the two with a [to_period] method. *)
Inductive date_value :=
| Datetime (d : datetime)
| Timestamp (d : datetime).

Definition date_of (v : date_value) : datetime :=
  match v with Datetime d | Timestamp d => d end.

(** What can be handed to the date parser. *)
Inductive date_input :=
| InNone
| InNaN
| InStr (s : string)
| InDate (v : date_value).

(** Python truth value. *)
Definition truthy (i : date_input) : bool :=
  match i with
  | InNone => false
  | InNaN => true
  | InStr s => PyStr.nonempty s
  | InDate _ => true
  end.

(** ** [datetime.strptime] for the directives of [date_formats] *)

Module Strptime.

Inductive directive := Dd | Dm | DY.

Inductive item :=
| Dir (d : directive)
| Lit (c : ascii).

(** The format string as the sequence of its directives and literal
    characters; [None] is a bad directive ([ValueError]). *)
Fixpoint compile (fmt : string) : option (list item) :=
  match fmt with
  | EmptyString => Some []
  | String "%" (String c r) =>
      match (if Ascii.eqb c "d" then Some Dd
             else if Ascii.eqb c "m" then Some Dm
             else if Ascii.eqb c "Y" then Some DY
             else None), compile r with
      | Some d, Some its => Some (Dir d :: its)
      | _, _ => None
      end
  | String c r =>
      match compile r with
      | Some its => Some (Lit c :: its)
      | None => None
      end
  end.

Definition dv (c : ascii) : Z := PyStr.code c - 48.

Definition opt_to_list {A} (o : option A) : list A :=
  match o with Some x => [x] | None => [] end.

(** The alternatives of a directive's regular expression, in the order
    the expression lists them, each with the value it reads and the
    input it leaves.
    - [%d]: [3[0-1]|[1-2]\d|0[1-9]|[1-9]| [1-9]]
    - [%m]: [1[0-2]|0[1-9]|[1-9]]
    - [%Y]: [\d\d\d\d] *)
Definition alternatives (d : directive) (s : string) : list (Z * string) :=
  match d with
  | Dd =>
      opt_to_list
        (match s with
         | String a (String b r) =>
             if Ascii.eqb a "3" && PyStr.in_range 48 49 b
             then Some (30 + dv b, r) else None
         | _ => None
         end)
      ++ opt_to_list
        (match s with
         | String a (String b r) =>
             if PyStr.in_range 49 50 a && PyStr.is_digit b
             then Some (10 * dv a + dv b, r) else None
         | _ => None
         end)
      ++ opt_to_list
        (match s with
         | String a (String b r) =>
             if Ascii.eqb a "0" && PyStr.in_range 49 57 b
             then Some (dv b, r) else None
         | _ => None
         end)
      ++ opt_to_list
        (match s with
         | String a r =>
             if PyStr.in_range 49 57 a then Some (dv a, r) else None
         | _ => None
         end)
      ++ opt_to_list
        (match s with
         | String a (String b r) =>
             if Ascii.eqb a " " && PyStr.in_range 49 57 b
             then Some (dv b, r) else None
         | _ => None
         end)
  | Dm =>
      opt_to_list
        (match s with
         | String a (String b r) =>
             if Ascii.eqb a "1" && PyStr.in_range 48 50 b
             then Some (10 + dv b, r) else None
         | _ => None
         end)
      ++ opt_to_list
        (match s with
         | String a (String b r) =>
             if Ascii.eqb a "0" && PyStr.in_range 49 57 b
             then Some (dv b, r) else None
         | _ => None
         end)
      ++ opt_to_list
        (match s with
         | String a r =>
             if PyStr.in_range 49 57 a then Some (dv a, r) else None
         | _ => None
         end)
  | DY =>
      opt_to_list
        (match s with
         | String a (String b (String c (String e r))) =>
             if PyStr.is_digit a && PyStr.is_digit b
                && PyStr.is_digit c && PyStr.is_digit e
             then Some (((dv a * 10 + dv b) * 10 + dv c) * 10 + dv e, r)
             else None
         | _ => None
         end)
  end.

(** The groups found so far; [strptime] starts from year 1900,
    month 1, day 1. *)
Record fields := mkfields { fY : Z; fm : Z; fd : Z }.

Definition init : fields := mkfields 1900 1 1.

Definition set_field (d : directive) (v : Z) (f : fields) : fields :=
  match d with
  | Dd => mkfields (fY f) (fm f) v
  | Dm => mkfields (fY f) v (fd f)
  | DY => mkfields v (fm f) (fd f)
  end.

Fixpoint first_some {A B} (f : A -> option B) (l : list A) : option B :=
  match l with
  | [] => None
  | x :: l' =>
      match f x with
      | Some y => Some y
      | None => first_some f l'
      end
  end.

(** [re.match] of the compiled format: alternatives are tried in
    order, backtracking into the next one when the rest of the format
    fails; the result is the first match and the input left after it. *)
Fixpoint match_items (its : list item) (s : string) (acc : fields)
  : option (fields * string) :=
  match its with
  | [] => Some (acc, s)
  | Lit c :: its' =>
      match s with
      | String c' s' =>
          if Ascii.eqb c c' then match_items its' s' acc else None
      | EmptyString => None
      end
  | Dir d :: its' =>
      first_some
        (fun vs => match_items its' (snd vs) (set_field d (fst vs) acc))
        (alternatives d s)
  end.

(** [datetime.strptime(s, fmt)]; [None] is [ValueError]: a bad
    directive, no match, unconverted data after the match, or a date
    the calendar does not have. *)
Definition strptime (s fmt : string) : option datetime :=
  match compile fmt with
  | None => None
  | Some its =>
      match match_items its s init with
      | Some (f, EmptyString) =>
          if valid_ymd (fY f) (fm f) (fd f)
          then Some (mkdate (fY f) (fm f) (fd f))
          else None
      | _ => None
      end
  end.

Definition digit (k : Z) : ascii := ascii_of_N (Z.to_N (48 + k)).

Definition pad2 (n : Z) (r : string) : string :=
  String (digit (n / 10)) (String (digit (n mod 10)) r).

Definition pad4 (n : Z) (r : string) : string :=
  String (digit (n / 1000)) (String (digit (n / 100 mod 10))
    (String (digit (n / 10 mod 10)) (String (digit (n mod 10)) r))).

(** A number from 0 to 9999 in decimal, without leading zeros. *)
Definition unpadded (n : Z) (r : string) : string :=
  if n <? 10 then String (digit n) r
  else if n <? 100 then pad2 n r
  else if n <? 1000 then String (digit (n / 100)) (pad2 (n mod 100) r)
  else pad4 n r.

(** [d.strftime('%d-%m-%Y')]: day and month on two digits; the year as
    the C library's [strftime] writes [%Y] for Python on Linux, in
    decimal without padding: 999 for the year 999, not 0999. *)
Definition strftime_dmY (d : datetime) : string :=
  pad2 (day d)
    (String "-" (pad2 (month d) (String "-" (unpadded (year d) "")))).

End Strptime.

(** ** The date parser *)

Definition date_formats : list string :=
  [ "%d-%m-%Y"; "%d/%m/%Y"; "%d.%m.%Y";
    "%m-%d-%Y"; "%m/%d/%Y"; "%m.%d.%Y";
    "%Y-%m-%d"; "%Y/%m/%d"; "%Y.%m.%d";
    "%m-%Y"; "%m/%Y"; "%m.%Y";
    "%Y-%m"; "%Y/%m"; "%Y.%m" ].

Definition month_only_formats : list string :=
  [ "%m-%Y"; "%m/%Y"; "%m.%Y"; "%Y-%m"; "%Y/%m"; "%Y.%m" ].

Definition string_in (s : string) (l : list string) : bool :=
  existsb (String.eqb s) l.

(** The class [[0-9/.-]]. *)
Definition date_char (c : ascii) : bool :=
  PyStr.is_digit c || Ascii.eqb c "/" || Ascii.eqb c "." || Ascii.eqb c "-".

(** [re.sub(r'[^0-9/.-]', '', s)] *)
Definition clean_date_input (s : string) : string := PyStr.keep date_char s.

Definition replace_day_1 (d : datetime) : datetime := mkdate (year d) (month d) 1.

(** One turn of the loop over [date_formats]. *)
Definition try_format (clean_input fmt : string) : option datetime :=
  match Strptime.strptime clean_input fmt with
  | Some date_object =>
      if string_in fmt month_only_formats
      then Some (replace_day_1 date_object)
      else Some date_object
  | None => None
  end.

(** [not date_input or str(date_input).strip() == ""] *)
Definition is_blank (s : string) : bool :=
  negb (PyStr.nonempty s) || String.eqb (PyStr.strip s) "".

Definition parse_date_input (date_input : date_input) : option date_value :=
  match date_input with
  | InDate v => Some v
  | InNone => None
  | InNaN => None
  | InStr s =>
      if is_blank s then None
      else
        option_map Datetime
          (Strptime.first_some (try_format (clean_date_input s)) date_formats)
  end.


(** ** Amounts: binary64 *)

Definition fzero : spec_float := S754_zero false.
Definition fmul : spec_float -> spec_float -> spec_float := SFmul 53 1024.
Definition fdiv : spec_float -> spec_float -> spec_float := SFdiv 53 1024.
Definition fadd : spec_float -> spec_float -> spec_float := SFadd 53 1024.
Definition float_of_Z (z : Z) : spec_float := binary_normalize 53 1024 z 0 false.

Definition isna_float (a : spec_float) : bool :=
  match a with S754_nan => true | _ => false end.

(** [numpy.rint]: the nearest integer, halves to the even one. *)
Definition rint (x : spec_float) : spec_float :=
  match x with
  | S754_finite s m e =>
      if 0 <=? e then x
      else
        let p := 2 ^ (- e) in
        let q := Z.pos m / p in
        let r := Z.pos m mod p in
        let n := if 2 * r <? p then q
                 else if p <? 2 * r then q + 1
                 else if Z.even q then q else q + 1 in
        if n =? 0 then S754_zero s
        else binary_normalize 53 1024 (cond_Zopp s n) 0 s
  | _ => x
  end.

(** [Series.round(2)], numpy's way: scale by 100, [rint], scale back. *)
Definition round2 (x : spec_float) : spec_float :=
  fdiv (rint (fmul x (float_of_Z 100))) (float_of_Z 100).

(** ** The data frame of expenses *)

Record expense := mkexpense {
  Date : option datetime;
  Category : option string;
  Amount : spec_float;
  Description : option string
}.

Record frame := mkframe { columns : list string; rows : list expense }.

Definition expense_columns : list string :=
  ["Date"; "Category"; "Amount"; "Description"].

(** [pd.DataFrame()] *)
Definition empty_DataFrame : frame := mkframe [] [].

(** [pd.DataFrame(columns=['Date', 'Category', 'Amount', 'Description'])] *)
Definition new_DataFrame : frame := mkframe expense_columns [].

(** [df.empty]: an axis of length 0. *)
Definition is_empty (df : frame) : bool :=
  match columns df, rows df with
  | [], _ | _, [] => true
  | _, _ => false
  end.

(** The columns of [pd.concat([a, b])]: those of [a], then those of
    [b] that [a] does not have. *)
Definition concat_columns (a b : list string) : list string :=
  (a ++ List.filter (fun c => negb (string_in c a)) b)%list.

(** A row of the file as [pd.read_csv] hands it over: the text of the
    date and amount cells, a missing cell being NaN ([InNaN], [None]). *)
Record raw_row := mkraw {
  raw_Date : date_input;
  raw_Category : option string;
  raw_Amount : string;
  raw_Description : option string
}.

(** One row of the category report. *)
Record report_row := mkreport {
  report_category : string;
  total_amount : spec_float;
  transaction_count : nat;
  percentage : spec_float
}.

(** ** Library routines the tracker calls

    [float] and [pd.to_numeric] read a number off a text, the pandas
    reductions add floats up in an order of their own, and
    [sort_values] sorts with numpy's default, which is not stable.  The
    tracker is modelled over any such routines. *)
Class Library := {
  (** [float(s)]; [None] is [ValueError]. *)
  py_float : string -> option spec_float;
  (** the [Amount] cell after [pd.to_numeric(..., errors='coerce')]:
      the number the text denotes, NaN when it denotes none. *)
  to_numeric : string -> spec_float;
  (** [GroupBy.sum] on the amounts of one group, in ledger order. *)
  group_sum : list spec_float -> spec_float;
  (** [Series.sum] *)
  series_sum : list spec_float -> spec_float;
  (** [sort_values('Total Amount', ascending=False)] *)
  sort_values : list report_row -> list report_row
}.

(** No row is followed by one with a larger total. *)
Definition not_below (a b : report_row) : Prop :=
  SFltb (total_amount a) (total_amount b) = false.

(** What [sort_values] promises: the same rows, in descending order. *)
Definition sorts_descending (L : Library) : Prop :=
  forall l, Permutation l (sort_values l) /\ Sorted not_below (sort_values l).

(** ** Category names *)

(** An inner [defaultdict(int)]: spellings with their counts, in
    insertion order. *)
Definition counts := list (string * nat).

(** [variations[original_name] += 1] *)
Fixpoint bump (original_name : string) (variations : counts) : counts :=
  match variations with
  | [] => [(original_name, 1%nat)]
  | (n, k) :: rest =>
      if String.eqb n original_name then (n, S k) :: rest
      else (n, k) :: bump original_name rest
  end.

(** The body of the counting loop. *)
Definition count_variation (name_variations : gmap string counts)
    (category_name : option string) : gmap string counts :=
  match category_name with
  | None => name_variations
  | Some s =>
      let clean_name := PyStr.lower (PyStr.strip s) in
      let original_name := PyStr.strip s in
      <[clean_name :=
          bump original_name (default [] (name_variations !! clean_name))]>
        name_variations
  end.

Definition count_variations (cats : list (option string)) : gmap string counts :=
  fold_left count_variation cats ∅.

(** [max(items, key=lambda x: x[1])]: the first item of largest count. *)
Fixpoint max_by_count (best : string * nat) (items : counts) : string * nat :=
  match items with
  | [] => best
  | x :: rest =>
      max_by_count (if (snd best <? snd x)%nat then x else best) rest
  end.

Definition most_common_name (variations : counts) : option string :=
  match variations with
  | [] => None
  | x :: rest => Some (fst (max_by_count x rest))
  end.

Definition build_category_name_mapping (expense_data : frame)
  : gmap string string :=
  if negb (is_empty expense_data) && string_in "Category" (columns expense_data)
  then omap most_common_name
         (count_variations (map Category (rows expense_data)))
  else ∅.

(** [normalize_category_name] on a [str]. *)
Definition canonical_name (category_name_mapping : gmap string string)
    (category_name : string) : string :=
  let clean_name := PyStr.strip category_name in
  let lowercase_name := PyStr.lower clean_name in
  default clean_name (category_name_mapping !! lowercase_name).

(** [normalize_category_name]; [None] is a missing value, for which
    [pd.isna] holds. *)
Definition normalize_category_name (category_name_mapping : gmap string string)
    (category_name : option string) : option string :=
  match category_name with
  | None => None
  | Some s => Some (canonical_name category_name_mapping s)
  end.

Definition normalize_all_categories (category_name_mapping : gmap string string)
    (expense_data : frame) : frame :=
  if negb (is_empty expense_data) && string_in "Category" (columns expense_data)
  then mkframe (columns expense_data)
         (map (fun e => mkexpense (Date e)
                          (normalize_category_name category_name_mapping (Category e))
                          (Amount e) (Description e))
              (rows expense_data))
  else expense_data.

(** ** The tracker *)

Record tracker := mktracker {
  expense_data : frame;
  category_name_mapping : gmap string string
}.

(** What an operation prints. *)
Inductive line :=
| Text (s : string)
| Added (date : string) (category : option string) (amount : spec_float).

(** *** The dtypes of the ledger

    A pandas column has a dtype beside its values.  The ledger holds
    its dates in a datetime64 column and its amounts in a numeric one,
    or either of them in a column of dtype object, whose cells are
    Python objects.  The calls of the tracker that tell the two apart
    raise on a column of dtype object: [idxmax] and [idxmin],
    [to_string] with the format ['%.2f'], and the accessor [.dt].  The
    two dtypes are followed beside the tracker. *)
Record dtypes := mkdtypes {
  (** the [Date] column is a datetime64 column, not one of dtype object *)
  Date_is_datetime64 : bool;
  (** the [Amount] column is a numeric column, not one of dtype object *)
  Amount_is_numeric : bool
}.

(** [pd.DataFrame(columns=[...])]: every column is of dtype object. *)
Definition new_DataFrame_dtypes : dtypes := mkdtypes false false.

(** [new_record] of [add_new_expense]: a datetime and a float. *)
Definition new_record_dtypes : dtypes := mkdtypes true true.

(** [pd.concat([a, b])]: a column keeps the kind of dtype that both
    frames have and is of dtype object otherwise, also when [a] has no
    rows (pandas 3; earlier versions left a frame without rows out of
    account). *)
Definition concat_dtypes (a b : dtypes) : dtypes :=
  mkdtypes (Date_is_datetime64 a && Date_is_datetime64 b)
           (Amount_is_numeric a && Amount_is_numeric b).

(** What [analyze_categories] does: it returns a report, the empty one
    for an empty ledger, or raises before it returns. *)
Inductive analysis :=
| Report (category_report : list report_row)
| AnalysisRaises.

Section Tracker.

Context {L : Library}.

(** The row as the frame holds it before cleaning. *)
Definition convert_row (r : raw_row) : expense :=
  mkexpense (option_map date_of (parse_date_input (raw_Date r)))
            (raw_Category r)
            (to_numeric (raw_Amount r))
            (raw_Description r).

(** [dropna(subset=['Date', 'Amount'])] *)
Definition has_date_and_amount (e : expense) : bool :=
  match Date e with
  | Some _ => negb (isna_float (Amount e))
  | None => false
  end.

(** [Amount > 0] *)
Definition positive_amount (e : expense) : bool := SFltb fzero (Amount e).

(** [source] is what [pd.read_csv] gives for a file with the expected
    header; [None] stands for a file that is missing or cannot be
    read as such. *)
Definition load_expense_data (source : option (list raw_row)) : frame :=
  match source with
  | None => new_DataFrame
  | Some raw =>
      let expense_dataframe := map convert_row raw in
      let expense_dataframe := List.filter has_date_and_amount expense_dataframe in
      let expense_dataframe := List.filter positive_amount expense_dataframe in
      mkframe expense_columns expense_dataframe
  end.

(** [__init__] *)
Definition tracker_init (source : option (list raw_row)) : tracker :=
  let expense_data := load_expense_data source in
  let category_name_mapping := build_category_name_mapping expense_data in
  mktracker (normalize_all_categories category_name_mapping expense_data)
            category_name_mapping.

(** The [Date] column as [save_expense_data] writes it. *)
Definition saved_dates (self : tracker) : list (option string) :=
  map (fun e => option_map Strptime.strftime_dmY (Date e))
      (rows (expense_data self)).

(** *** Adding an expense *)

(** What the user types at the prompts of [add_new_expense], and the
    two things the operation asks of its surroundings: the clock and
    whether writing the file succeeds. *)
Record add_inputs := mkadd {
  typed_date : string;
  typed_category : string;
  typed_amount : string;
  typed_description : string;
  typed_confirm : string;
  typed_save_choice : string;
  now : datetime;
  save_succeeds : bool
}.

(** The tracker after the call, and what the call printed. *)
Definition add_new_expense (self : tracker) (i : add_inputs)
  : tracker * list line :=
  let input_date := typed_date i in
  let input_category := PyStr.strip (typed_category i) in
  let input_amount := typed_amount i in
  let input_description := PyStr.strip (typed_description i) in
  match parse_date_input (InStr input_date) with
  | None => (self, [Text "Please use a valid date format like DD-MM-YYYY"])
  | Some expense_date =>
      if date_ltb (now i) (date_of expense_date)
         && negb (String.eqb (PyStr.lower (typed_confirm i)) "y")
      then (self, [])
      else
        match py_float input_amount with
        | None => (self, [Text "Please enter a valid number"])
        | Some expense_amount =>
            if SFleb expense_amount fzero
            then (self, [Text "Amount must be positive"])
            else
              let normalized_category :=
                canonical_name (category_name_mapping self) input_category in
              let category_key := PyStr.lower (PyStr.strip input_category) in
              let mapping :=
                match category_name_mapping self !! category_key with
                | Some _ => category_name_mapping self
                | None => <[category_key := normalized_category]>
                            (category_name_mapping self)
                end in
              let new_record :=
                mkexpense (Some (date_of expense_date))
                          (Some normalized_category)
                          expense_amount (Some input_description) in
              let data :=
                mkframe (concat_columns (columns (expense_data self))
                                        expense_columns)
                        (rows (expense_data self) ++ [new_record])%list in
              (mktracker data mapping,
               Added (Strptime.strftime_dmY (date_of expense_date))
                     (Some normalized_category) expense_amount
               :: (if String.eqb
                        (PyStr.lower (PyStr.strip (typed_save_choice i))) "y"
                   then if save_succeeds i
                        then [Text "Expense saved successfully!"]
                        else [Text "Failed to save expense"]
                   else [Text "Expense added locally. Save before exiting!"]))
        end
  end.

(** *** Category analysis *)

(** [groupby('Category')]: the groups in ascending order of their key
    (the default, [sort=True]), each with the amounts of its rows in
    ledger order; rows without a category belong to no group. *)
Fixpoint group_insert (k : string) (a : spec_float)
    (groups : list (string * list spec_float))
  : list (string * list spec_float) :=
  match groups with
  | [] => [(k, [a])]
  | (k', l) :: rest =>
      match String.compare k k' with
      | Eq => (k', (l ++ [a])%list) :: rest
      | Lt => (k, [a]) :: groups
      | Gt => (k', l) :: group_insert k a rest
      end
  end.

Definition group_row (groups : list (string * list spec_float)) (e : expense)
  : list (string * list spec_float) :=
  match Category e with
  | None => groups
  | Some c => group_insert c (Amount e) groups
  end.

Definition groupby_Category (data : list expense)
  : list (string * list spec_float) :=
  fold_left group_row data [].

(** The report that [analyze_categories] builds for a ledger that is
    not empty. *)
Definition category_report (self : tracker) : list report_row :=
  let grouped_by_category := groupby_Category (rows (expense_data self)) in
  let category_totals := map (fun g => group_sum (snd g)) grouped_by_category in
  let overall_spending := series_sum category_totals in
  sort_values
    (map (fun g =>
            mkreport (fst g) (group_sum (snd g)) (length (snd g))
              (round2 (fmul (fdiv (group_sum (snd g)) overall_spending)
                            (float_of_Z 100))))
         grouped_by_category).

(** [analyze_categories]: the report is printed before it is returned,
    by [to_string(float_format='%.2f')].  On numeric columns pandas
    applies the format with [%].  The totals and percentages computed
    from an [Amount] column of dtype object are Python numbers in
    columns of dtype object: dividing by an overall total of zero is a
    [ZeroDivisionError], and on a float of such a column pandas calls
    [float_format], a [str], which is a [TypeError]; with at least one
    group one of the two is raised, and nothing catches it.  A report
    without rows is printed as it is. *)
Definition analyze_categories (self : tracker) (ledger_dtypes : dtypes)
  : analysis :=
  if is_empty (expense_data self) then Report []
  else if Amount_is_numeric ledger_dtypes then Report (category_report self)
  else
    match groupby_Category (rows (expense_data self)) with
    | [] => Report (category_report self)
    | _ :: _ => AnalysisRaises
    end.

(** *** Filtering *)

(** [str(x)] of an argument of the filter. *)
Definition py_str (x : date_input) : string :=
  match x with
  | InNone => "None"
  | InNaN => "nan"
  | InStr s => s
  | InDate v =>
      Strptime.pad4 (year (date_of v))
        (String "-" (Strptime.pad2 (month (date_of v))
           (String "-" (Strptime.pad2 (day (date_of v)) " 00:00:00"))))
  end.

(** [month_date.to_period('M')]: a plain [datetime] has no such
    method, and [None] is the [AttributeError]. *)
Definition to_period_M (v : date_value) : option (Z * Z) :=
  match v with
  | Timestamp d => Some (year d, month d)
  | Datetime _ => None
  end.

Definition in_period (p : Z * Z) (e : expense) : bool :=
  match Date e with
  | Some d => (year d =? fst p) && (month d =? snd p)
  | None => false
  end.

Definition on_or_after (start : datetime) (e : expense) : bool :=
  match Date e with Some d => date_leb start d | None => false end.

Definition on_or_before (stop : datetime) (e : expense) : bool :=
  match Date e with Some d => date_leb d stop | None => false end.

Definition isSome {A} (o : option A) : bool :=
  match o with Some _ => true | None => false end.

Definition select (p : expense -> bool) (df : frame) : frame :=
  mkframe (columns df) (List.filter p (rows df)).

(** The frame returned, what was printed, and the tracker after the
    call.  The selection by month goes through the accessor [.dt],
    which only a datetime64 column has: on dates in a column of dtype
    object it is an [AttributeError], caught like the others.  The
    selection by range compares cell by cell, which both kinds of
    column allow. *)
Definition filter_expenses (self : tracker) (ledger_dtypes : dtypes)
    (start_date end_date target_month : date_input)
  : frame * list line * tracker :=
  let expense_copy := expense_data self in
  if truthy target_month then
    match parse_date_input target_month with
    | None =>
        (empty_DataFrame,
         [Text "Invalid month format. Use formats like YYYY-MM or MM-YYYY"],
         self)
    | Some month_date =>
        match to_period_M month_date with
        | None => (empty_DataFrame, [], self)
        | Some month_period =>
            if Date_is_datetime64 ledger_dtypes
            then (select (in_period month_period) expense_copy, [], self)
            else (empty_DataFrame, [], self)
        end
    end
  else if truthy start_date || truthy end_date then
    let parsed_start :=
      if truthy start_date then parse_date_input start_date else None in
    let parsed_end :=
      if truthy end_date then parse_date_input end_date else None in
    if truthy start_date && negb (isSome parsed_start)
    then (empty_DataFrame,
          [Text ("Invalid start date: " ++ py_str start_date)%string], self)
    else if truthy end_date && negb (isSome parsed_end)
    then (empty_DataFrame,
          [Text ("Invalid end date: " ++ py_str end_date)%string], self)
    else
      let expense_copy :=
        match parsed_start with
        | Some s => select (on_or_after (date_of s)) expense_copy
        | None => expense_copy
        end in
      let expense_copy :=
        match parsed_end with
        | Some e => select (on_or_before (date_of e)) expense_copy
        | None => expense_copy
        end in
      (expense_copy, [], self)
  else (expense_copy, [], self).

End Tracker.

(** ** A reference library

    One instance of the routines above, used to run the tracker on
    concrete inputs: decimal literals for the two number readers, sums
    from left to right, and a stable insertion sort (what numpy's
    default sort does on a short array). *)

Module Reference.

Fixpoint read_digits (s : string) (acc : Z) (n : nat) : Z * nat * string :=
  match s with
  | String c r =>
      if PyStr.is_digit c then read_digits r (acc * 10 + Strptime.dv c) (S n)
      else (acc, n, s)
  | EmptyString => (acc, n, s)
  end.

(** A decimal literal: an optional minus sign, digits, and an optional
    fraction. *)
Definition decimal (s : string) : option spec_float :=
  let sb := match s with
            | String "-" r => (true, r)
            | _ => (false, s)
            end in
  let sign := fun x : spec_float => if fst sb then SFopp x else x in
  let '(ip, n1, rest) := read_digits (snd sb) 0 0 in
  match rest with
  | EmptyString =>
      match n1 with
      | O => None
      | _ => Some (sign (float_of_Z ip))
      end
  | String "." r =>
      let '(v, n2, rest2) := read_digits r ip 0 in
      match rest2, (n1 + n2)%nat with
      | EmptyString, S _ =>
          Some (sign (fdiv (float_of_Z v) (float_of_Z (10 ^ Z.of_nat n2))))
      | _, _ => None
      end
  | _ => None
  end.

Definition left_sum (l : list spec_float) : spec_float :=
  fold_left fadd l fzero.

Fixpoint insert_desc (x : report_row) (l : list report_row) : list report_row :=
  match l with
  | [] => [x]
  | y :: rest =>
      if SFltb (total_amount x) (total_amount y)
      then y :: insert_desc x rest
      else x :: l
  end.

Definition stable_sort_desc (l : list report_row) : list report_row :=
  fold_right insert_desc [] l.

Definition library : Library :=
  {| py_float := decimal;
     to_numeric := fun s => default S754_nan (decimal s);
     group_sum := left_sum;
     series_sum := left_sum;
     sort_values := stable_sort_desc |}.

End Reference.


(** ** The rest of the tracker *)

(** *** File names: [os.path] on a POSIX system *)

Module OsPath.

Fixpoint has_sep (p : string) : bool :=
  match p with
  | EmptyString => false
  | String c r => Ascii.eqb c "/" || has_sep r
  end.

(** [os.path.basename(p)]: what follows the last "/". *)
Fixpoint basename (p : string) : string :=
  match p with
  | EmptyString => EmptyString
  | String c r => if has_sep p then basename r else p
  end.

(** [s.endswith(suffix)] *)
Fixpoint endswith (s suffix : string) : bool :=
  String.eqb s suffix
  || match s with
     | EmptyString => false
     | String _ r => endswith r suffix
     end.

(** [os.path.join(a, b)] *)
Definition join (a b : string) : string :=
  match b with
  | String "/" _ => b
  | _ =>
      if negb (PyStr.nonempty a) || endswith a "/" then (a ++ b)%string
      else (a ++ String "/" b)%string
  end.

End OsPath.

(** [SAFE_DIRECTORY] is [os.getcwd()] at the time the class is made. *)
Definition make_safe_file_path (SAFE_DIRECTORY file_path : string) : string :=
  let clean_file_name :=
    match OsPath.basename file_path with
    | EmptyString => "expenses.csv"
    | name => name
    end in
  let clean_file_name :=
    if OsPath.endswith clean_file_name ".csv" then clean_file_name
    else (clean_file_name ++ ".csv")%string in
  OsPath.join SAFE_DIRECTORY clean_file_name.

(** *** The spending summary *)

Definition minus_infinity : spec_float := S754_infinity true.
Definition plus_infinity : spec_float := S754_infinity false.

(** A missing amount stands as [v] in the search. *)
Definition fill (v a : spec_float) : spec_float :=
  if isna_float a then v else a.

(** One pass over the records, keeping the first that none betters. *)
Fixpoint first_best (better : spec_float -> spec_float -> bool)
    (key : expense -> spec_float) (best : expense) (l : list expense) : expense :=
  match l with
  | [] => best
  | x :: r =>
      first_best better key (if better (key x) (key best) then x else best) r
  end.

(** [df.loc[df['Amount'].idxmax()]]: missing amounts count as minus
    infinity; [None], an exception, when there is no amount at all. *)
Definition idxmax (data : list expense) : option expense :=
  if forallb (fun e => isna_float (Amount e)) data then None
  else
    match data with
    | [] => None
    | x :: r =>
        Some (first_best (fun a b => SFltb b a)
                (fun e => fill minus_infinity (Amount e)) x r)
    end.

(** [df.loc[df['Amount'].idxmin()]] *)
Definition idxmin (data : list expense) : option expense :=
  if forallb (fun e => isna_float (Amount e)) data then None
  else
    match data with
    | [] => None
    | x :: r =>
        Some (first_best (fun a b => SFltb a b)
                (fun e => fill plus_infinity (Amount e)) x r)
    end.

Record spending_summary := mksummary {
  total_spent : spec_float;
  highest_expense : expense;
  lowest_expense : expense
}.

(** What [display_spending_summary] does: it says that there are no
    expenses, or prints the total and the two records, or raises
    ([idxmax] on a column of dtype object, no amount to compare, or a
    record without a date to print). *)
Inductive summary_result :=
| NoExpenses
| SummaryShown (s : spending_summary)
| SummaryRaises.

(** [idxmax] and [idxmin] are not defined for a column of dtype object:
    [TypeError], before anything is printed. *)
Definition display_spending_summary {L : Library} (self : tracker)
    (ledger_dtypes : dtypes) : summary_result :=
  if is_empty (expense_data self) then NoExpenses
  else
    let total_spent := series_sum (map Amount (rows (expense_data self))) in
    if negb (Amount_is_numeric ledger_dtypes) then SummaryRaises
    else
      match idxmax (rows (expense_data self)),
            idxmin (rows (expense_data self)) with
      | Some highest_expense, Some lowest_expense =>
          match Date highest_expense, Date lowest_expense with
          | Some _, Some _ =>
              SummaryShown
                (mksummary total_spent highest_expense lowest_expense)
          | _, _ => SummaryRaises
          end
      | _, _ => SummaryRaises
      end.

(** *** The filter menu *)

(** What the user types at the prompts of [show_filter_menu]; a prompt
    that is not reached is not read. *)
Record filter_menu_inputs := mkmenu {
  typed_filter_choice : string;
  typed_start : string;
  typed_end : string;
  typed_month : string
}.

(** A line that is printed, the table of the records found, their
    dates written as DD-MM-YYYY, or the [AttributeError] that ends the
    call when the records found cannot be shown. *)
Inductive menu_output :=
| Said (l : line)
| Showed (records : list expense)
| MenuRaises.

(** The three lines that open the menu; the first starts with a line
    feed. The prompts of [input] are not lines. *)
Definition filter_menu_heading : list menu_output :=
  [Said (Text (String "010" "Filter by:"));
   Said (Text "1. Date Range");
   Said (Text "2. Month")].

(** The records found are shown with their dates formatted through
    the accessor [.dt], which only a datetime64 column has; a selection
    of rows has the dtypes of the ledger. *)
Definition show_filter_menu (self : tracker) (ledger_dtypes : dtypes)
    (i : filter_menu_inputs) : list menu_output :=
  filter_menu_heading ++
  let filter_choice := PyStr.strip (typed_filter_choice i) in
  let answer :=
    if String.eqb filter_choice "1"
    then Some (filter_expenses self ledger_dtypes (InStr (typed_start i))
                 (InStr (typed_end i)) InNone)
    else if String.eqb filter_choice "2"
    then Some (filter_expenses self ledger_dtypes InNone InNone
                 (InStr (typed_month i)))
    else None in
  match answer with
  | None => [Said (Text "Invalid choice")]
  | Some (filtered_data, printed, _) =>
      (map Said printed
       ++ if is_empty filtered_data
          then [Said (Text "No matching records found")]
          else if Date_is_datetime64 ledger_dtypes
          then [Showed (rows filtered_data)]
          else [MenuRaises])%list
  end.

(** *** The dtypes along a run *)

(** The dtypes after [load_expense_data].  Without a file that can be
    read the ledger is [pd.DataFrame(columns=[...])].  Otherwise
    [pd.to_numeric] gives a numeric column, and
    [apply(self.parse_date_input)] a datetime64 column when it parsed
    the date of some row and a column of dtype object (of [None]s, or
    without cells) when it parsed none; removing rows changes no
    dtype. *)
Definition load_dtypes (source : option (list raw_row)) : dtypes :=
  match source with
  | None => new_DataFrame_dtypes
  | Some raw =>
      mkdtypes (existsb (fun r => isSome (parse_date_input (raw_Date r))) raw)
               true
  end.

(** Whether a call of [add_new_expense] appends its record. *)
Definition appends {L : Library} (self : tracker) (i : add_inputs) : bool :=
  match snd (add_new_expense self i) with
  | Added _ _ _ :: _ => true
  | _ => false
  end.

(** The dtypes after [add_new_expense]: those of the [pd.concat], when
    it is reached. *)
Definition add_dtypes {L : Library} (self : tracker) (i : add_inputs)
    (ledger_dtypes : dtypes) : dtypes :=
  if appends self i then concat_dtypes ledger_dtypes new_record_dtypes
  else ledger_dtypes.

(** The trackers reached from [source], each with the dtypes of its
    ledger. *)
Inductive reached_from {L : Library} (source : option (list raw_row))
  : tracker -> dtypes -> Prop :=
| reached_init :
    reached_from source (tracker_init source) (load_dtypes source)
| reached_add self ledger_dtypes i :
    reached_from source self ledger_dtypes ->
    reached_from source (fst (add_new_expense self i))
      (add_dtypes self i ledger_dtypes).

(** *** A reference library whose [float] reads "nan" *)

Module ReferenceNaN.

Definition py_float_nan (s : string) : option spec_float :=
  if String.eqb s "nan" then Some S754_nan else Reference.decimal s.

Definition library : Library :=
  {| py_float := py_float_nan;
     to_numeric := fun s => default S754_nan (Reference.decimal s);
     group_sum := Reference.left_sum;
     series_sum := Reference.left_sum;
     sort_values := Reference.stable_sort_desc |}.

End ReferenceNaN.

(** *** More vocabulary *)

(** [d.isoformat()] of a date: YYYY-MM-DD. *)
Definition isoformat (d : datetime) : string :=
  Strptime.pad4 (year d)
    (String "-" (Strptime.pad2 (month d)
       (String "-" (Strptime.pad2 (day d) "")))).

(** The date written MM/DD/YYYY. *)
Definition month_first (d : datetime) : string :=
  Strptime.pad2 (month d)
    (String "/" (Strptime.pad2 (day d)
       (String "/" (Strptime.pad4 (year d) "")))).

(** A file with a record of the year 999. *)
Definition old_file : list raw_row :=
  [ mkraw (InStr "01-01-0999") (Some "Food") "5" (Some "");
    mkraw (InStr "15/03/2024") (Some "Food") "10" (Some "") ].

Definition old_tracker : tracker :=
  tracker_init (L := Reference.library) (Some old_file).

(** A cell of the [Date] column of a file: a text, or missing. *)
Definition text_cell (x : date_input) : Prop :=
  match x with
  | InDate _ => False
  | _ => True
  end.

(** The trackers reached from a file, whose dates are texts. *)
Inductive reachable_from_file {L : Library} : tracker -> Prop :=
| from_file_init source :
    (forall raw, source = Some raw ->
                 Forall (fun r => text_cell (raw_Date r)) raw) ->
    reachable_from_file (tracker_init source)
| from_file_add self i :
    reachable_from_file self ->
    reachable_from_file (fst (add_new_expense self i)).

(** [a] is larger, smaller, than [b]. *)
Definition larger (a b : spec_float) : bool := SFltb b a.
Definition smaller (a b : spec_float) : bool := SFltb a b.

(** [e] is the first record of [l] that none beats: it beats the
    records before it, and none after it beats it. *)
Definition first_unbeaten (beats : spec_float -> spec_float -> bool)
    (l : list expense) (e : expense) : Prop :=
  exists A B,
    l = (A ++ e :: B)%list
    /\ Forall (fun x => beats (Amount e) (Amount x) = true) A
    /\ Forall (fun x => beats (Amount x) (Amount e) = false) B.

(** The number of records that the rows of a report count. *)
Definition counted (report : list report_row) : nat :=
  fold_right (fun r n => (transaction_count r + n)%nat) 0%nat report.

(** ** Vocabulary of the statements *)

(** The documented order of the formats. *)
Definition day_month_year : list string := ["%d-%m-%Y"; "%d/%m/%Y"; "%d.%m.%Y"].
Definition month_day_year : list string := ["%m-%d-%Y"; "%m/%d/%Y"; "%m.%d.%Y"].

(** [first_match c fmts fmt dt]: [fmt] is the first format of [fmts]
    that reads the whole of [c] as a date, and [dt] is that date. *)
Inductive first_match (c : string) : list string -> string -> datetime -> Prop :=
| first_match_here fmt rest dt :
    Strptime.strptime c fmt = Some dt -> first_match c (fmt :: rest) fmt dt
| first_match_later f rest fmt dt :
    Strptime.strptime c f = None ->
    first_match c rest fmt dt -> first_match c (f :: rest) fmt dt.

(** The key under which a category is grouped: [lowercase(trim(value))]. *)
Definition category_key (s : string) : string := PyStr.lower (PyStr.strip s).

(** The trimmed spellings, in source order, of the categories of key
    [k]; a missing category has none. *)
Definition spellings (k : string) (cats : list (option string)) : list string :=
  List.filter (fun v => String.eqb (PyStr.lower v) k)
    (flat_map (fun c => match c with
                        | Some s => [PyStr.strip s]
                        | None => []
                        end) cats).

Definition occurrences (v : string) (l : list string) : nat :=
  count_occ string_dec l v.

(** [v] is met in [l] before [w] is: some occurrence of [v] has no [w]
    in front of it. *)
Definition first_before (v w : string) (l : list string) : Prop :=
  exists l1 l2, l = (l1 ++ v :: l2)%list /\ ~ In w l1.

(** [v] is the most frequent element of [l], and among the most
    frequent ones the one met first. *)
Definition most_frequent_first (l : list string) (v : string) : Prop :=
  In v l
  /\ (forall w, In w l -> (occurrences w l <= occurrences v l)%nat)
  /\ (forall w, In w l -> occurrences w l = occurrences v l ->
                 first_before v w l).

(** Every entry of the table stores a spelling of its own key. *)
Definition table_ok (m : gmap string string) : Prop :=
  forall k v, m !! k = Some v -> category_key v = k /\ PyStr.strip v = v.

(** One row "groceries" and three rows "Groceries". *)
Definition groceries_example : frame :=
  mkframe expense_columns
    (map (fun c => mkexpense (Some (mkdate 2024 3 15)) (Some c)
                     (float_of_Z 10) (Some ""))
         ["groceries"; "Groceries"; "Groceries"; "Groceries"]).

(** The trackers the program can be in: built from a file, then
    extended by [add_new_expense]. *)
Inductive reachable {L : Library} : tracker -> Prop :=
| reachable_init source : reachable (tracker_init source)
| reachable_add self i :
    reachable self -> reachable (fst (add_new_expense self i)).

(** A small file and one addition, run on the reference library. *)
Definition example_file : list raw_row :=
  [ mkraw (InStr "15/03/2024") (Some "Groceries") "45.50" (Some "Weekly shop");
    mkraw (InStr "2024-03-31") (Some "groceries") "3" (Some "");
    mkraw (InStr "01.04.2024") (Some " Groceries") "7.25" None;
    mkraw (InStr "31-02-2024") (Some "Rent") "700" (Some "no such day");
    mkraw (InStr "02-04-2024") (Some "Rent") "-700" (Some "negative");
    mkraw (InStr "03-04-2024") (Some "Books") "abc" (Some "not a number") ].

Definition example_tracker : tracker :=
  tracker_init (L := Reference.library) (Some example_file).

Definition example_inputs : add_inputs :=
  mkadd "05/04/2024" " Travel " "12.5" " bus " "" "n" (mkdate 2026 11 4) true.

(** The amount read off "12.5". *)
Definition twelve_and_a_half : spec_float :=
  S754_finite false 7036874417766400 (-49).

(** A date after [now] for which the confirmation is not "y". *)
Definition declined (expense_date : date_value) (i : add_inputs) : bool :=
  date_ltb (now i) (date_of expense_date)
  && negb (String.eqb (PyStr.lower (typed_confirm i)) "y").

(** A future date, declined at the prompt, with an amount that is not
    a number. *)
Definition declined_inputs : add_inputs :=
  mkadd "01-01-2999" "Food" "abc" "" "n" "n" (mkdate 2026 11 4) true.

Definition invalid_date_inputs : add_inputs :=
  mkadd "31-02-2024" "Food" "10" "" "" "n" (mkdate 2026 11 4) true.

(** A bound of the date range that was given and does not parse. *)
Definition unparsable (bound : date_input) : bool :=
  truthy bound && negb (isSome (parse_date_input bound)).

(** The date a bound stands for, if it was given. *)
Definition bound_date (bound : date_input) : option datetime :=
  if truthy bound then option_map date_of (parse_date_input bound) else None.

(** [(no start or date >= start) and (no end or date <= end)] *)
Definition within (start_date end_date : date_input) (e : expense) : bool :=
  match bound_date start_date with
  | Some s => on_or_after s e
  | None => true
  end
  && match bound_date end_date with
     | Some s => on_or_before s e
     | None => true
     end.

(** A ledger with records on 2024-03-01, 2024-03-31 and 2024-04-01. *)
Definition march_tracker : tracker :=
  mktracker
    (mkframe expense_columns
       (map (fun d => mkexpense (Some d) (Some "Food") (float_of_Z 10) (Some ""))
            [mkdate 2024 3 1; mkdate 2024 3 31; mkdate 2024 4 1]))
    {["food" := "Food"]}.

(** The amounts, in ledger order, of the records of category [c]. *)
Definition has_category (c : string) (e : expense) : bool :=
  match Category e with
  | Some c' => String.eqb c' c
  | None => false
  end.

Definition amounts_of (c : string) (data : list expense) : list spec_float :=
  map Amount (List.filter (has_category c) data).

(** The categories of the records, in ledger order. *)
Definition categories (data : list expense) : list string :=
  flat_map (fun e => match Category e with
                     | Some c => [c]
                     | None => []
                     end) data.

(** Python's order on [str]. *)
Definition str_lt (a b : string) : Prop := String.compare a b = Lt.

(** Rows of equal total come in the order in which their categories
    are first seen in the ledger. *)
Definition ties_first_seen (data : list expense) (report : list report_row)
  : Prop :=
  forall A a B b C,
    report = (A ++ a :: B ++ b :: C)%list ->
    SFeqb (total_amount a) (total_amount b) = true ->
    first_before (report_category a) (report_category b) (categories data).

(** A file with four rows in three categories. *)
Definition shop_file : list raw_row :=
  [ mkraw (InStr "01-03-2024") (Some "Food") "10" (Some "");
    mkraw (InStr "02-03-2024") (Some "Books") "5" (Some "");
    mkraw (InStr "03-03-2024") (Some "food") "2.5" (Some "");
    mkraw (InStr "04-03-2024") (Some "Rent") "700" (Some "") ].

Definition shop_tracker : tracker :=
  tracker_init (L := Reference.library) (Some shop_file).

(** Food first, then Books, 10 each. *)
Definition tie_tracker : tracker :=
  mktracker
    (mkframe expense_columns
       [mkexpense (Some (mkdate 2024 3 1)) (Some "Food") (float_of_Z 10) (Some "");
        mkexpense (Some (mkdate 2024 3 2)) (Some "Books") (float_of_Z 10) (Some "")])
    {["food" := "Food"; "books" := "Books"]}.

(** The distinct elements, in the order of their first occurrence. *)
Definition firsts (l : list string) : list string :=
  rev (nodup string_dec (rev l)).

(** The counting loop on the spellings of one key. *)
Definition tally_from (c : counts) (l : list string) : counts :=
  fold_left (fun c v => bump v c) l c.

(** The amounts grouped under a key. *)
Fixpoint assoc (k : string) (g : list (string * list spec_float))
  : option (list spec_float) :=
  match g with
  | [] => None
  | (k', l) :: rest => if String.eqb k k' then Some l else assoc k rest
  end.

(** * Properties *)

(** ** Strings *)

Module PyStrFacts.
Import PyStr.

Lemma lstrip_head c r : is_space c = false -> lstrip (String c r) = String c r.
Proof. intros H. simpl. now rewrite H. Qed.

Lemma rstrip_head c r :
  is_space c = false -> exists r', rstrip (String c r) = String c r'.
Proof.
  intros H. simpl. destruct (rstrip r).
  - rewrite H. now eexists.
  - now eexists.
Qed.

Lemma rstrip_idem s : rstrip (rstrip s) = rstrip s.
Proof.
  induction s as [|c r IH]; [reflexivity|].
  simpl. destruct (rstrip r) as [|c' r'] eqn:E.
  - destruct (is_space c) eqn:Hc; [reflexivity|].
    simpl. now rewrite Hc.
  - simpl. simpl in IH. rewrite IH. reflexivity.
Qed.

Lemma lstrip_no_space s :
  match lstrip s with
  | EmptyString => True
  | String c _ => is_space c = false
  end.
Proof.
  induction s as [|c r IH]; [exact I|].
  simpl. destruct (is_space c) eqn:Hc; [exact IH | exact Hc].
Qed.

Lemma strip_idem s : strip (strip s) = strip s.
Proof.
  unfold strip. pose proof (lstrip_no_space s) as H.
  destruct (lstrip s) as [|c r] eqn:E; [reflexivity|].
  destruct (rstrip_head c r H) as [r' Hr]. rewrite Hr.
  rewrite (lstrip_head c r' H). rewrite <- Hr. apply rstrip_idem.
Qed.

Lemma strip_head_nonempty c r :
  is_space c = false -> String.eqb (strip (String c r)) "" = false.
Proof.
  intros H. unfold strip. rewrite (lstrip_head c r H).
  destruct (rstrip_head c r H) as [r' ->]. reflexivity.
Qed.

Lemma keep_all p s :
  Forall (fun c => p c = true) (list_ascii_of_string s) -> keep p s = s.
Proof.
  induction s as [|c r IH]; [reflexivity|].
  simpl. intros H. inversion H; subst.
  rewrite H2. f_equal. now apply IH.
Qed.


End PyStrFacts.

(** ** The date parser *)

Module DateParserFacts.
Import Strptime.

Lemma first_some_Some {A B} (f : A -> option B) l y :
  first_some f l = Some y <->
  exists l1 x l2, l = (l1 ++ x :: l2)%list
                  /\ Forall (fun z => f z = None) l1 /\ f x = Some y.
Proof.
  induction l as [|a l IH]; simpl.
  - split; [discriminate|]. intros (l1 & x & l2 & H & _). now destruct l1.
  - destruct (f a) eqn:Ha.
    + split.
      * intros Hy. exists [], a, l. repeat split; [constructor | congruence].
      * intros (l1 & x & l2 & H & Hn & Hx).
        destruct l1 as [|a' l1']; simpl in H; inversion H; subst.
        -- congruence.
        -- inversion Hn; congruence.
    + rewrite IH. split.
      * intros (l1 & x & l2 & Hl & Hn & Hx). subst l.
        exists (a :: l1), x, l2. repeat split; [constructor|]; assumption.
      * intros (l1 & x & l2 & H & Hn & Hx).
        destruct l1 as [|a' l1']; simpl in H; inversion H; subst.
        -- congruence.
        -- inversion Hn; subst. exists l1', x, l2. repeat split; assumption.
Qed.

Lemma first_some_None {A B} (f : A -> option B) l :
  first_some f l = None <-> Forall (fun z => f z = None) l.
Proof.
  induction l as [|a l IH]; simpl.
  - split; auto.
  - destruct (f a) eqn:Ha.
    + split; [discriminate|]. intros H. inversion H; congruence.
    + rewrite IH. split; [auto|]. intros H. now inversion H.
Qed.

Lemma Z_range_cases (P : Z -> Prop) (lo : Z) (len : nat) :
  (forall i, (i < len)%nat -> P (lo + Z.of_nat i)) ->
  forall n, lo <= n < lo + Z.of_nat len -> P n.
Proof.
  intros H n Hn. replace n with (lo + Z.of_nat (Z.to_nat (n - lo))) by lia.
  apply H. lia.
Qed.

Lemma digit_ok k :
  0 <= k <= 9 ->
  PyStr.is_digit (digit k) = true /\ dv (digit k) = k
  /\ PyStr.is_space (digit k) = false.
Proof.
  intros Hk. pattern k. apply (Z_range_cases _ 0 10); [|lia].
  clear. intros i Hi.
  do 10 (destruct i as [|i]; [now vm_compute|]). lia.
Qed.

Lemma match_items_Dir d its s acc :
  match_items (Dir d :: its) s acc
  = first_some (fun vs => match_items its (snd vs) (set_field d (fst vs) acc))
               (alternatives d s).
Proof. reflexivity. Qed.

Lemma match_items_Lit c its s acc :
  match_items (Lit c :: its) (String c s) acc = match_items its s acc.
Proof. simpl. now rewrite Ascii.eqb_refl. Qed.

Lemma match_items_Lit_digit k its s acc :
  0 <= k <= 9 ->
  match_items (Lit "-" :: its) (String (digit k) s) acc = None.
Proof.
  intros Hk.
  change (match_items (Lit "-" :: its) (String (digit k) s) acc)
    with (if Ascii.eqb "-" (digit k) then match_items its s acc else None).
  destruct (Ascii.eqb_spec "-"%char (digit k)) as [E|]; [|reflexivity].
  destruct (digit_ok k Hk) as (Hd & _). rewrite <- E in Hd. discriminate.
Qed.

(** The readings of a two-digit day: the whole field first, and for
    10 and above its first digit alone as well. *)
Lemma day_alternatives n r :
  1 <= n <= 31 ->
  alternatives Dd (pad2 n r)
  = (n, r) :: (if 10 <=? n then [(n / 10, String (digit (n mod 10)) r)] else []).
Proof.
  intros Hn. revert r. pattern n. apply (Z_range_cases _ 1 31); [|lia].
  clear. intros i Hi r.
  do 31 (destruct i as [|i]; [vm_compute; reflexivity|]). lia.
Qed.

Lemma month_alternatives n r :
  1 <= n <= 12 ->
  alternatives Dm (pad2 n r)
  = (n, r) :: (if 10 <=? n then [(n / 10, String (digit (n mod 10)) r)] else []).
Proof.
  intros Hn. revert r. pattern n. apply (Z_range_cases _ 1 12); [|lia].
  clear. intros i Hi r.
  do 12 (destruct i as [|i]; [vm_compute; reflexivity|]). lia.
Qed.

Lemma year_alternatives y r :
  0 <= y <= 9999 -> alternatives DY (pad4 y r) = [(y, r)].
Proof.
  intros Hy. unfold alternatives, pad4.
  destruct (digit_ok (y / 1000)) as (-> & -> & _);
    [Z.div_mod_to_equations; lia|].
  destruct (digit_ok (y / 100 mod 10)) as (-> & -> & _);
    [Z.div_mod_to_equations; lia|].
  destruct (digit_ok (y / 10 mod 10)) as (-> & -> & _);
    [Z.div_mod_to_equations; lia|].
  destruct (digit_ok (y mod 10)) as (-> & -> & _);
    [Z.div_mod_to_equations; lia|].
  simpl. do 2 f_equal. Z.div_mod_to_equations. lia.
Qed.

Lemma match_field_sep d n r its acc :
  0 <= n <= 99 ->
  alternatives d (pad2 n (String "-" r))
  = (n, String "-" r)
      :: (if 10 <=? n
          then [(n / 10, String (digit (n mod 10)) (String "-" r))] else []) ->
  match_items (Dir d :: Lit "-" :: its) (pad2 n (String "-" r)) acc
  = match_items its r (set_field d n acc).
Proof.
  intros Hn Halt. rewrite match_items_Dir, Halt. cbn [first_some fst snd].
  rewrite match_items_Lit.
  destruct (match_items its r (set_field d n acc)) eqn:E; [reflexivity|].
  destruct (10 <=? n); [|reflexivity].
  cbn [first_some fst snd]. rewrite match_items_Lit_digit; [reflexivity|].
  Z.div_mod_to_equations. lia.
Qed.

Lemma sep_not_digit sep b :
  PyStr.is_digit sep = false -> PyStr.is_digit b = true ->
  Ascii.eqb sep b = false.
Proof.
  intros Hs Hb. destruct (Ascii.eqb_spec sep b) as [->|]; congruence.
Qed.

Lemma match_Lit_test c c' its s acc :
  match_items (Lit c :: its) (String c' s) acc
  = if Ascii.eqb c c' then match_items its s acc else None.
Proof. reflexivity. Qed.

Lemma match_Lit_digit sep k its s acc :
  PyStr.is_digit sep = false -> 0 <= k <= 9 ->
  match_items (Lit sep :: its) (String (digit k) s) acc = None.
Proof.
  intros Hs Hk. rewrite match_Lit_test, sep_not_digit; [reflexivity|exact Hs|].
  now apply digit_ok.
Qed.

(** A two-digit field before a separator: the separator must be the one
    of the format. *)
Lemma match_field_any_sep d n sep sep' r its acc :
  0 <= n <= 99 -> PyStr.is_digit sep = false ->
  alternatives d (pad2 n (String sep' r))
  = (n, String sep' r)
      :: (if 10 <=? n
          then [(n / 10, String (digit (n mod 10)) (String sep' r))] else []) ->
  match_items (Dir d :: Lit sep :: its) (pad2 n (String sep' r)) acc
  = if Ascii.eqb sep sep' then match_items its r (set_field d n acc) else None.
Proof.
  intros Hn Hs Halt. rewrite match_items_Dir, Halt.
  cbn [first_some fst snd]. rewrite match_Lit_test.
  assert (Hk : 0 <= n mod 10 <= 9) by (Z.div_mod_to_equations; lia).
  destruct (Ascii.eqb sep sep').
  - destruct (match_items its r (set_field d n acc)); [reflexivity|].
    destruct (10 <=? n); [|reflexivity].
    cbn [first_some fst snd]. now rewrite match_Lit_digit.
  - destruct (10 <=? n); [|reflexivity].
    cbn [first_some fst snd]. now rewrite match_Lit_digit.
Qed.

(** From 13 on, a two-digit number is no month: [%m] reads its first
    digit only. *)
Lemma month_alternatives_high n r :
  13 <= n <= 31 ->
  alternatives Dm (pad2 n r) = [(n / 10, String (digit (n mod 10)) r)].
Proof.
  intros Hn. revert r. pattern n.
  apply (Z_range_cases _ 13 19); [|lia].
  clear. intros i Hi r.
  do 19 (destruct i as [|i]; [vm_compute; reflexivity|]). lia.
Qed.

Lemma match_month_high n sep r its acc :
  13 <= n <= 31 -> PyStr.is_digit sep = false ->
  match_items (Dir Dm :: Lit sep :: its) (pad2 n r) acc = None.
Proof.
  intros Hn Hs. rewrite match_items_Dir, month_alternatives_high
    by assumption.
  cbn [first_some fst snd]. rewrite match_Lit_digit; [reflexivity|exact Hs|].
  Z.div_mod_to_equations. lia.
Qed.

Lemma valid_bounds d :
  valid_date d ->
  1 <= year d <= 9999 /\ 1 <= month d <= 12 /\ 1 <= day d <= 31.
Proof.
  unfold valid_date, valid_ymd. intros Hv.
  repeat (apply andb_prop in Hv as [Hv ?]).
  assert (days_in_month (year d) (month d) <= 31)
    by (unfold days_in_month;
        repeat match goal with |- context [if ?b then _ else _] => destruct b end;
        lia).
  lia.
Qed.

(** From 1000 on, a year is written on four digits. *)
Lemma unpadded_four y r : 1000 <= y -> unpadded y r = pad4 y r.
Proof.
  intros Hy. unfold unpadded.
  destruct (Z.ltb_spec y 10); [lia|]. destruct (Z.ltb_spec y 100); [lia|].
  destruct (Z.ltb_spec y 1000); [lia|reflexivity].
Qed.

Lemma strptime_strftime d :
  valid_date d -> 1000 <= year d ->
  strptime (strftime_dmY d) "%d-%m-%Y" = Some d.
Proof.
  intros Hv Hlong. destruct (valid_bounds d Hv) as (Hy & Hm & Hd).
  unfold valid_date in Hv.
  unfold strptime, strftime_dmY. rewrite unpadded_four by exact Hlong.
  change (compile "%d-%m-%Y")
    with (Some [Dir Dd; Lit "-"%char; Dir Dm; Lit "-"%char; Dir DY]).
  cbv beta iota.
  rewrite match_field_sep by (try apply day_alternatives; lia).
  rewrite match_field_sep by (try apply month_alternatives; lia).
  rewrite match_items_Dir, year_alternatives by lia.
  cbn [first_some match_items fst snd set_field init fY fm fd].
  rewrite Hv. now destruct d.
Qed.

(** A year below 1000 is written on fewer than four digits, which
    [%Y] does not read. *)
Lemma year_short y : 0 <= y < 1000 -> alternatives DY (unpadded y "") = [].
Proof.
  intros Hy. unfold unpadded.
  destruct (Z.ltb_spec y 10); [reflexivity|].
  destruct (Z.ltb_spec y 100); [reflexivity|].
  destruct (Z.ltb_spec y 1000); [reflexivity|lia].
Qed.

(** [%Y] does not read a text whose third character is "-". *)
Lemma year_on_field n r :
  0 <= n <= 99 -> alternatives DY (pad2 n (String "-" r)) = [].
Proof.
  intros Hn. unfold alternatives, pad2. destruct r; [reflexivity|].
  change (PyStr.is_digit "-") with false.
  now rewrite andb_false_r.
Qed.

(** No format reads a two-digit day, a two-digit month and a year that
    [%Y] does not read, with "-" between them. *)
Lemma strptime_short_year a b t fmt :
  1 <= a <= 31 -> 1 <= b <= 12 -> alternatives DY t = [] ->
  In fmt date_formats ->
  strptime (pad2 a (String "-" (pad2 b (String "-" t)))) fmt = None.
Proof.
  intros Ha Hb Ht Hin. unfold strptime.
  assert (Hcase : a <= 12 \/ 13 <= a) by lia.
  cbn in Hin. decompose [or] Hin; subst; try contradiction;
    match goal with
    | |- context [compile ?f] =>
        let its := eval vm_compute in (compile f) in
        change (compile f) with its
    end;
    cbv beta iota;
    destruct Hcase;
    repeat
      (first
         [ rewrite match_month_high by (lia || reflexivity)
         | rewrite match_field_any_sep
             by first [ lia | reflexivity
                      | apply day_alternatives; lia
                      | apply month_alternatives; lia ]
         | rewrite match_items_Dir, year_on_field by lia
         | rewrite match_items_Dir, Ht ];
       cbn [first_some];
       repeat match goal with
              | |- context [Ascii.eqb ?x ?y] =>
                  let v := eval vm_compute in (Ascii.eqb x y) in
                  change (Ascii.eqb x y) with v
              end;
       cbv iota);
    reflexivity.
Qed.

Lemma date_char_digit k : 0 <= k <= 9 -> date_char (digit k) = true.
Proof.
  intros Hk. unfold date_char. now destruct (digit_ok k Hk) as (-> & _).
Qed.

Lemma clean_strftime d :
  valid_date d -> clean_date_input (strftime_dmY d) = strftime_dmY d.
Proof.
  intros Hv. destruct (valid_bounds d Hv) as (Hy & Hm & Hd).
  apply PyStrFacts.keep_all. unfold strftime_dmY, unpadded.
  destruct (Z.ltb_spec (year d) 10); [|destruct (Z.ltb_spec (year d) 100);
    [|destruct (Z.ltb_spec (year d) 1000)]];
    unfold pad2, pad4; cbn [list_ascii_of_string];
    repeat (constructor; [first [reflexivity | apply date_char_digit;
                                 Z.div_mod_to_equations; lia]|]);
    constructor.
Qed.

Lemma strftime_not_blank d : valid_date d -> is_blank (strftime_dmY d) = false.
Proof.
  intros Hv. destruct (valid_bounds d Hv) as (Hy & Hm & Hd).
  unfold is_blank, strftime_dmY, pad2. cbn [PyStr.nonempty negb orb].
  apply PyStrFacts.strip_head_nonempty.
  apply digit_ok. Z.div_mod_to_equations. lia.
Qed.

Lemma try_format_None c fmt :
  try_format c fmt = None <-> strptime c fmt = None.
Proof.
  unfold try_format. destruct (strptime c fmt); [|tauto].
  destruct (string_in fmt month_only_formats); split; discriminate.
Qed.

Lemma first_some_first_match c fmts x :
  first_some (try_format c) fmts = Some x <->
  exists fmt dt,
    first_match c fmts fmt dt
    /\ x = if string_in fmt month_only_formats then replace_day_1 dt else dt.
Proof.
  induction fmts as [|f fmts IH]; cbn [first_some].
  - split; [discriminate|]. intros (fmt & dt & H & _). inversion H.
  - destruct (try_format c f) as [y|] eqn:E.
    + unfold try_format in E. destruct (strptime c f) as [dt|] eqn:Es;
        [|discriminate].
      split.
      * intros Hx. exists f, dt. split; [now constructor|].
        destruct (string_in f month_only_formats); congruence.
      * intros (fmt & dt' & H & Hx). inversion H; subst; [|congruence].
        destruct (string_in fmt month_only_formats); congruence.
    + apply try_format_None in E. rewrite IH. split.
      * intros (fmt & dt & H & Hx). exists fmt, dt. split; [|assumption].
        now constructor.
      * intros (fmt & dt & H & Hx). inversion H; subst; [congruence|].
        exists fmt, dt. now split.
Qed.

End DateParserFacts.

Lemma parse_strftime (d : datetime) :
  valid_date d -> 1000 <= year d ->
  parse_date_input (InStr (Strptime.strftime_dmY d)) = Some (Datetime d).
Proof.
  intros Hv Hlong. unfold parse_date_input.
  rewrite (DateParserFacts.strftime_not_blank d Hv).
  rewrite (DateParserFacts.clean_strftime d Hv).
  unfold date_formats. cbn [Strptime.first_some]. unfold try_format at 1.
  rewrite (DateParserFacts.strptime_strftime d Hv Hlong). reflexivity.
Qed.

Lemma parse_strftime_short (d : datetime) :
  valid_date d -> year d < 1000 ->
  parse_date_input (InStr (Strptime.strftime_dmY d)) = None.
Proof.
  intros Hv Hshort.
  destruct (DateParserFacts.valid_bounds d Hv) as (Hy & Hm & Hd).
  unfold parse_date_input.
  rewrite (DateParserFacts.strftime_not_blank d Hv).
  rewrite (DateParserFacts.clean_strftime d Hv).
  replace (Strptime.first_some (try_format (Strptime.strftime_dmY d))
             date_formats) with (@None datetime); [reflexivity|].
  symmetry. apply DateParserFacts.first_some_None, Forall_forall.
  intros fmt Hin. apply list_elem_of_In in Hin.
  apply DateParserFacts.try_format_None.
  apply DateParserFacts.strptime_short_year;
    [lia|lia|apply DateParserFacts.year_short; lia|exact Hin].
Qed.

(** What is read back of a date that [save_expense_data] wrote. *)
Lemma parse_saved_date (d : datetime) :
  valid_date d ->
  option_map date_of (parse_date_input (InStr (Strptime.strftime_dmY d)))
  = if year d <? 1000 then None else Some d.
Proof.
  intros Hv. destruct (Z.ltb_spec (year d) 1000) as [Hs|Hl].
  - now rewrite (parse_strftime_short d Hv Hs).
  - now rewrite (parse_strftime d Hv Hl).
Qed.

(** Reading the [Date] column that [save_expense_data] writes gives the
    dates of the ledger back from the year 1000 on, and nothing for an
    earlier year, when the dates are calendar dates. *)
Lemma saved_dates_parse_back (self : tracker) :
  Forall (fun e => forall d, Date e = Some d -> valid_date d)
         (rows (expense_data self)) ->
  map (fun cell =>
         match cell with
         | Some text => option_map date_of (parse_date_input (InStr text))
         | None => None
         end) (saved_dates self)
  = map (fun e =>
           match Date e with
           | Some d => if year d <? 1000 then None else Some d
           | None => None
           end) (rows (expense_data self)).
Proof.
  intros Hall. unfold saved_dates. rewrite map_map.
  apply map_ext_Forall. eapply Forall_impl; [exact Hall|].
  intros e He. cbn beta. destruct (Date e) as [d|] eqn:Ed; [|reflexivity].
  cbn [option_map]. apply (parse_saved_date d (He d Ed)).
Qed.

(** C8, as the code has it.  For a valid calendar date [d], the text
    that [save_expense_data] writes for it, [d.strftime('%d-%m-%Y')],
    is parsed back by [parse_date_input] to [d] when the year of [d] is
    1000 or more; for an earlier year the year is written on fewer than
    four digits, no format reads the text, and nothing is parsed back:
    the round trip that the claim states fails for the years 1 to
    999. *)
Theorem format_parse_roundtrip (d : datetime) :
  valid_date d ->
  option_map date_of (parse_date_input (InStr (Strptime.strftime_dmY d)))
  = if year d <? 1000 then None else Some d.
Proof. exact (parse_saved_date d). Qed.

(** The first day of the year 999 is written "01-01-999" and read back
    as nothing. *)
Lemma format_parse_roundtrip_witness :
  valid_date (mkdate 999 1 1)
  /\ Strptime.strftime_dmY (mkdate 999 1 1) = "01-01-999"
  /\ option_map date_of (parse_date_input (InStr "01-01-999")) = None.
Proof.
  split; [reflexivity|]. split; [reflexivity|].
  exact (format_parse_roundtrip (mkdate 999 1 1) eq_refl).
Defined.



(** ** Category names *)

Module CategoryFacts.

Lemma firsts_snoc l x :
  firsts (l ++ [x])
  = if in_dec string_dec x l then firsts l else (firsts l ++ [x])%list.
Proof.
  unfold firsts. rewrite rev_unit. cbn [nodup].
  destruct (in_dec string_dec x (rev l)) as [Hi|Hn];
    destruct (in_dec string_dec x l) as [Hi'|Hn']; try reflexivity.
  - exfalso. apply Hn'. now apply in_rev.
  - exfalso. apply Hn. now apply in_rev in Hi'.
Qed.

Lemma firsts_In l x : In x (firsts l) <-> In x l.
Proof.
  unfold firsts. rewrite <- in_rev, nodup_In, <- in_rev. reflexivity.
Qed.

Lemma firsts_NoDup l : List.NoDup (firsts l).
Proof. unfold firsts. apply NoDup_rev, NoDup_nodup. Qed.

Lemma bump_absent x (f : string -> nat) ks :
  ~ In x ks ->
  bump x (map (fun v => (v, f v)) ks)
  = (map (fun v => (v, f v)) ks ++ [(x, 1%nat)])%list.
Proof.
  induction ks as [|k ks IH]; intros Hn; [reflexivity|].
  cbn [map bump app]. destruct (String.eqb_spec k x) as [->|Hne].
  - exfalso. apply Hn. now left.
  - rewrite IH; [reflexivity|]. intros Hi. apply Hn. now right.
Qed.

Lemma bump_present x (f : string -> nat) ks :
  In x ks -> List.NoDup ks ->
  bump x (map (fun v => (v, f v)) ks)
  = map (fun v => (v, if String.eqb v x then S (f v) else f v)) ks.
Proof.
  induction ks as [|k ks IH]; intros Hi Hd; [destruct Hi|].
  inversion Hd as [|? ? Hk Hd']; subst.
  cbn [map bump]. destruct (String.eqb_spec k x) as [->|Hne].
  - f_equal. apply map_ext_in. intros v Hv.
    destruct (String.eqb_spec v x) as [->|]; [contradiction|reflexivity].
  - f_equal. apply IH; [|assumption]. destruct Hi; [contradiction|assumption].
Qed.

(** The counting loop leaves, for each distinct spelling in the order
    of first occurrence, the number of its occurrences. *)
Lemma tally_closed_form l :
  tally_from [] l = map (fun v => (v, occurrences v l)) (firsts l).
Proof.
  induction l as [|x l IH] using rev_ind; [reflexivity|].
  unfold tally_from in *. rewrite fold_left_app. cbn [fold_left].
  rewrite IH, firsts_snoc. unfold occurrences.
  destruct (in_dec string_dec x l) as [Hi|Hn].
  - rewrite bump_present by (try apply firsts_In; auto using firsts_NoDup).
    apply map_ext. intros v. rewrite count_occ_app. cbn [count_occ].
    destruct (String.eqb_spec v x) as [->|Hne].
    + destruct (string_dec x x); [|contradiction]. f_equal. lia.
    + destruct (string_dec x v); [congruence|]. f_equal. lia.
  - rewrite bump_absent by (now rewrite firsts_In).
    rewrite map_app. cbn [map]. f_equal.
    + apply map_ext_in. intros v Hv. rewrite count_occ_app. cbn [count_occ].
      destruct (string_dec x v) as [->|]; [|f_equal; lia].
      exfalso. apply Hn. now apply firsts_In.
    + rewrite count_occ_app. cbn [count_occ].
      destruct (string_dec x x); [|contradiction].
      rewrite (proj1 (count_occ_not_In string_dec l x) Hn). reflexivity.
Qed.

Lemma firsts_order l v w A B :
  firsts l = (A ++ v :: B)%list -> ~ In w A -> first_before v w l.
Proof.
  revert A B. induction l as [|x l IH] using rev_ind; intros A B E Hw.
  - now destruct A.
  - rewrite firsts_snoc in E.
    destruct (in_dec string_dec x l) as [Hi|Hn].
    + destruct (IH A B E Hw) as (l1 & l2 & -> & Hl1).
      exists l1, (l2 ++ [x])%list. split; [|assumption].
      now rewrite <- app_assoc.
    + destruct (exists_last (l := v :: B)) as (B' & b & EB); [discriminate|].
      rewrite EB, app_assoc in E. apply app_inj_tail in E as [E ->].
      destruct B' as [|v' B'].
      * injection EB as -> _. rewrite app_nil_r in E. subst A.
        exists l, []. split; [reflexivity|].
        intros Hl. apply Hw. now apply firsts_In.
      * cbn in EB. injection EB as -> _.
        destruct (IH A B' E Hw) as (l1 & l2 & -> & Hl1).
        exists l1, (l2 ++ [b])%list. split; [|assumption].
        now rewrite <- app_assoc.
Qed.

(** [max] returns the first of the items that no item exceeds. *)
Lemma max_by_count_spec items best :
  exists A B,
    (best :: items = A ++ max_by_count best items :: B)%list
    /\ Forall (fun x => (snd x < snd (max_by_count best items))%nat) A
    /\ Forall (fun x => (snd x <= snd (max_by_count best items))%nat) B.
Proof.
  revert best. induction items as [|x rest IH]; intros best.
  - exists [], []. cbn. repeat split; constructor.
  - cbn [max_by_count].
    destruct (Nat.ltb_spec (snd best) (snd x)) as [Hlt|Hge].
    + destruct (IH x) as (A & B & E & HA & HB).
      remember (max_by_count x rest) as r eqn:Hr. clear Hr.
      assert (Hx : (snd x <= snd r)%nat).
      { destruct A as [|a A]; cbn in E; inversion E; subst.
        - lia.
        - inversion HA; subst. lia. }
      exists (best :: A), B. split; [cbn; now f_equal|].
      split; [|assumption]. constructor; [lia|assumption].
    + destruct (IH best) as (A & B & E & HA & HB).
      remember (max_by_count best rest) as r eqn:Hr. clear Hr.
      destruct A as [|a A]; cbn in E; injection E as E1 E2; subst best rest.
      * exists [], (x :: B). split; [reflexivity|].
        split; [constructor|]. constructor; [exact Hge|assumption].
      * exists (a :: x :: A), B. split; [reflexivity|].
        split; [|assumption]. inversion HA as [|? ? Ha HA']; subst.
        constructor; [exact Ha|]. constructor; [|exact HA'].
        eapply Nat.le_lt_trans; [exact Hge | exact Ha].
Qed.

Lemma spellings_cons k c cats :
  spellings k (c :: cats)
  = match c with
    | Some s =>
        if String.eqb (PyStr.lower (PyStr.strip s)) k
        then PyStr.strip s :: spellings k cats
        else spellings k cats
    | None => spellings k cats
    end.
Proof.
  unfold spellings. cbn [flat_map]. destruct c as [s|]; [|reflexivity].
  cbn [app List.filter]. reflexivity.
Qed.

Lemma spellings_In k cats v :
  In v (spellings k cats) ->
  exists s, In (Some s) cats /\ v = PyStr.strip s /\ category_key s = k.
Proof.
  induction cats as [|c cats IH]; [intros []|].
  rewrite spellings_cons. destruct c as [s|].
  - destruct (String.eqb_spec (PyStr.lower (PyStr.strip s)) k) as [E|E].
    + intros [<-|Hv].
      * exists s. repeat split; [now left | exact E].
      * destruct (IH Hv) as (s' & ? & ? & ?). exists s'.
        repeat split; [now right | assumption | assumption].
    + intros Hv. destruct (IH Hv) as (s' & ? & ? & ?). exists s'.
      repeat split; [now right | assumption | assumption].
  - intros Hv. destruct (IH Hv) as (s' & ? & ? & ?). exists s'.
    repeat split; [now right | assumption | assumption].
Qed.

Lemma spellings_of_member k cats s :
  In (Some s) cats -> category_key s = k -> In (PyStr.strip s) (spellings k cats).
Proof.
  intros Hi Hk. induction cats as [|c cats IH]; [destruct Hi|].
  rewrite spellings_cons. destruct Hi as [->|Hi].
  - unfold category_key in Hk. rewrite Hk, String.eqb_refl. now left.
  - destruct c as [s'|]; [|now apply IH].
    destruct (String.eqb _ k); [right|]; now apply IH.
Qed.

Lemma count_variations_lookup k cats (m0 : gmap string counts) :
  fold_left count_variation cats m0 !! k
  = match spellings k cats with
    | [] => m0 !! k
    | l => Some (tally_from (default [] (m0 !! k)) l)
    end.
Proof.
  revert m0. induction cats as [|c cats IH]; intros m0; [reflexivity|].
  cbn [fold_left]. rewrite IH, spellings_cons.
  destruct c as [s|]; [|reflexivity]. unfold count_variation.
  destruct (String.eqb_spec (PyStr.lower (PyStr.strip s)) k) as [->|Hne].
  - destruct (spellings _ cats); rewrite lookup_insert_eq; reflexivity.
  - destruct (spellings k cats); rewrite lookup_insert_ne by assumption;
      reflexivity.
Qed.

Lemma build_lookup (data : frame) k :
  string_in "Category" (columns data) = true ->
  build_category_name_mapping data !! k
  = most_common_name (tally_from [] (spellings k (map Category (rows data)))).
Proof.
  intros Hc. unfold build_category_name_mapping. rewrite Hc.
  destruct (is_empty data) eqn:He; cbn [negb andb].
  - assert (rows data = []) as ->; [|reflexivity].
    unfold is_empty in He. destruct data as [cols rs]. cbn in *.
    destruct cols; [discriminate|]. now destruct rs.
  - rewrite lookup_omap. unfold count_variations.
    rewrite count_variations_lookup, lookup_empty.
    now destruct (spellings k (map Category (rows data))).
Qed.

Lemma most_common_spec l v :
  most_common_name (tally_from [] l) = Some v -> most_frequent_first l v.
Proof.
  rewrite tally_closed_form. intros H.
  destruct (map _ (firsts l)) as [|x rest] eqn:ET; [discriminate|].
  cbn [most_common_name] in H. injection H as Hv.
  destruct (max_by_count_spec rest x) as (A & B & E & HA & HB).
  rewrite <- ET in E. clear ET.
  apply map_eq_app in E as (ksA & ks' & Eks & EA & E).
  apply map_eq_cons in E as (kv & ksB & -> & Er & EB).
  rewrite <- Er in Hv, HA, HB. cbn [fst snd] in Hv, HA, HB. subst kv A B.
  assert (Hin : forall w, In w l <-> In w (ksA ++ v :: ksB)%list)
    by (intros w; rewrite <- Eks; symmetry; apply firsts_In).
  rewrite List.Forall_forall in HA, HB.
  assert (HA' : forall w, In w ksA -> (occurrences w l < occurrences v l)%nat).
  { intros w Hw. apply (HA (w, occurrences w l)).
    apply in_map_iff. now exists w. }
  assert (HB' : forall w, In w ksB -> (occurrences w l <= occurrences v l)%nat).
  { intros w Hw. apply (HB (w, occurrences w l)).
    apply in_map_iff. now exists w. }
  split; [|split].
  - apply Hin, in_elt.
  - intros w Hw. apply Hin, in_app_or in Hw. destruct Hw as [Hw|[<-|Hw]].
    + specialize (HA' w Hw). lia.
    + lia.
    + now apply HB'.
  - intros w Hw Heq. apply (firsts_order l v w ksA ksB Eks).
    intros Hw'. specialize (HA' w Hw'). lia.
Qed.

Lemma tally_nonempty l : l <> [] -> most_common_name (tally_from [] l) <> None.
Proof.
  intros Hl. rewrite tally_closed_form.
  destruct (firsts l) as [|k ks] eqn:E; [|discriminate].
  destruct l as [|x l]; [contradiction|].
  assert (In x (firsts (x :: l))) by (apply firsts_In; now left).
  rewrite E in H. destruct H.
Qed.

Lemma category_key_strip s : category_key (PyStr.strip s) = category_key s.
Proof. unfold category_key. now rewrite PyStrFacts.strip_idem. Qed.

Lemma build_table_ok (data : frame) : table_ok (build_category_name_mapping data).
Proof.
  intros k v H.
  destruct (string_in "Category" (columns data)) eqn:Hc.
  - rewrite build_lookup in H by assumption.
    apply most_common_spec in H as (Hv & _).
    apply spellings_In in Hv as (s & _ & -> & Hk).
    split; [now rewrite category_key_strip | apply PyStrFacts.strip_idem].
  - unfold build_category_name_mapping in H. rewrite Hc, andb_false_r in H.
    now rewrite lookup_empty in H.
Qed.

Lemma canonical_name_idem m s :
  table_ok m -> canonical_name m (canonical_name m s) = canonical_name m s.
Proof.
  intros Hm. unfold canonical_name at 2 3.
  destruct (m !! PyStr.lower (PyStr.strip s)) as [v|] eqn:E; cbn [default from_option id].
  - pose proof (proj1 (Hm _ _ E)) as Hk. unfold canonical_name.
    unfold category_key in Hk. rewrite Hk, E. reflexivity.
  - unfold canonical_name. rewrite PyStrFacts.strip_idem. now rewrite E.
Qed.

Lemma reachable_table_ok {L : Library} self :
  reachable self -> table_ok (category_name_mapping self).
Proof.
  induction 1 as [source|self i Hr IH].
  - apply build_table_ok.
  - unfold add_new_expense.
    destruct (parse_date_input (InStr (typed_date i))); [|exact IH].
    destruct (_ && _); [exact IH|].
    destruct (py_float (typed_amount i)); [|exact IH].
    destruct (SFleb _ fzero); [exact IH|]. cbn [fst category_name_mapping].
    destruct (category_name_mapping self !! _) eqn:E; [exact IH|].
    intros k v. destruct (decide (PyStr.lower (PyStr.strip (PyStr.strip (typed_category i))) = k)) as [<-|Hne].
    + rewrite lookup_insert_eq. intros [= <-].
      unfold canonical_name. rewrite E. cbn [default from_option id].
      split; [apply category_key_strip | apply PyStrFacts.strip_idem].
    + rewrite lookup_insert_ne by assumption. apply IH.
Qed.

End CategoryFacts.

(** Every category of the frame has its key in the table built from
    the frame: at load time [normalize_category_name] always finds it. *)
Lemma build_covers (data : frame) (e : expense) (s : string) :
  string_in "Category" (columns data) = true ->
  In e (rows data) -> Category e = Some s ->
  build_category_name_mapping data !! category_key s <> None.
Proof.
  intros Hc He Hs. rewrite CategoryFacts.build_lookup by assumption.
  apply CategoryFacts.tally_nonempty.
  assert (In (PyStr.strip s)
             (spellings (category_key s) (map Category (rows data)))) as Hi.
  { apply CategoryFacts.spellings_of_member; [|reflexivity].
    rewrite <- Hs. now apply in_map. }
  intros E. rewrite E in Hi. destruct Hi.
Qed.

(** C3. The table built from a frame maps a key [k] to the trimmed
    spelling that is most frequent among the categories of key [k]
    (the key being the trimmed, lowercased category), and among the
    most frequent ones to the spelling met first; a key has an entry
    exactly when some category has it.  With one row "groceries" and
    three rows "Groceries", every row is normalized to "Groceries". *)
Theorem canonical_name_most_frequent_first (data : frame) :
  string_in "Category" (columns data) = true ->
  (forall k v,
      build_category_name_mapping data !! k = Some v ->
      most_frequent_first (spellings k (map Category (rows data))) v)
  /\ (forall k,
        build_category_name_mapping data !! k = None <->
        spellings k (map Category (rows data)) = [])
  /\ map Category
        (rows (normalize_all_categories
                 (build_category_name_mapping groceries_example)
                 groceries_example))
     = [Some "Groceries"; Some "Groceries"; Some "Groceries"; Some "Groceries"].
Proof.
  intros Hc. split; [|split].
  - intros k v H. rewrite CategoryFacts.build_lookup in H by assumption.
    now apply CategoryFacts.most_common_spec.
  - intros k. rewrite CategoryFacts.build_lookup by assumption. split.
    + intros H.
      destruct (spellings k (map Category (rows data))) as [|x l] eqn:E;
        [reflexivity|].
      exfalso. revert H. rewrite <- E. apply CategoryFacts.tally_nonempty.
      rewrite E. discriminate.
    + intros ->. reflexivity.
  - vm_compute. reflexivity.
Qed.

Lemma canonical_name_most_frequent_first_witness :
  string_in "Category" (columns groceries_example) = true
  /\ most_frequent_first
       (spellings "groceries" (map Category (rows groceries_example)))
       "Groceries".
Proof.
  split; [reflexivity|].
  apply (proj1 (canonical_name_most_frequent_first groceries_example eq_refl)).
  vm_compute. reflexivity.
Defined.

(** C9. On every tracker the program can reach (built from a file and
    extended by any number of additions), normalizing a category twice
    is the same as normalizing it once. *)
Theorem normalize_idempotent {L : Library} (self : tracker) (x : option string) :
  reachable self ->
  normalize_category_name (category_name_mapping self)
    (normalize_category_name (category_name_mapping self) x)
  = normalize_category_name (category_name_mapping self) x.
Proof.
  intros Hr. destruct x as [s|]; [|reflexivity].
  cbn [normalize_category_name]. f_equal.
  apply CategoryFacts.canonical_name_idem.
  now apply CategoryFacts.reachable_table_ok.
Qed.

Lemma normalize_idempotent_witness :
  reachable (L := Reference.library)
    (fst (add_new_expense (L := Reference.library) example_tracker example_inputs))
  /\ normalize_category_name
       (category_name_mapping
          (fst (add_new_expense (L := Reference.library)
                  example_tracker example_inputs)))
       (Some "  TRAVEL")
     = Some "Travel".
Proof.
  assert (Hr : reachable (L := Reference.library)
                 (fst (add_new_expense (L := Reference.library)
                         example_tracker example_inputs)))
    by (apply reachable_add, reachable_init).
  split; [exact Hr|].
  rewrite <- (normalize_idempotent (L := Reference.library) _ (Some "  TRAVEL") Hr).
  vm_compute. reflexivity.
Defined.

(** C4. [normalize_category_name] leaves a missing category as it is
    and looks a text up under its trimmed, lowercased key: the stored
    spelling when the key is in the table, the trimmed text (case
    kept) when it is not; on a reachable tracker the empty text stays
    empty.  When [add_new_expense] appends a record, the record carries
    that name, and a key that was not in the table is registered with
    the trimmed text, a key that was in it leaves the table as it is. *)
Theorem normalize_lookup_or_register {L : Library}
    (self : tracker) (i : add_inputs)
    ds cat amt more :
  reachable self ->
  snd (add_new_expense self i) = Added ds cat amt :: more ->
  let m := category_name_mapping self in
  let c := typed_category i in
  let self' := fst (add_new_expense self i) in
  normalize_category_name m None = None
  /\ normalize_category_name m (Some "") = Some ""
  /\ (forall s,
        normalize_category_name m (Some s)
        = Some (match m !! category_key s with
                | Some v => v
                | None => PyStr.strip s
                end))
  /\ cat = normalize_category_name m (Some c)
  /\ (exists r, rows (expense_data self')
                = (rows (expense_data self) ++ [r])%list
                /\ Category r = cat)
  /\ (forall v, m !! category_key c = Some v ->
                category_name_mapping self' = m)
  /\ (m !! category_key c = None ->
      category_name_mapping self' = <[category_key c := PyStr.strip c]> m).
Proof.
  intros Hr Hout. cbv zeta.
  set (m := category_name_mapping self) in *.
  assert (Hn : forall s,
             normalize_category_name m (Some s)
             = Some (match m !! category_key s with
                     | Some v => v
                     | None => PyStr.strip s
                     end)).
  { intros s. cbn [normalize_category_name]. unfold canonical_name, category_key.
    now destruct (m !! PyStr.lower (PyStr.strip s)). }
  split; [reflexivity|]. split; [|split; [exact Hn|]].
  { rewrite Hn. change (category_key "") with "".
    destruct (m !! "") as [v|] eqn:E; [|reflexivity].
    destruct (CategoryFacts.reachable_table_ok self Hr _ _ E) as [Hk Hs].
    unfold category_key in Hk. rewrite Hs in Hk.
    destruct v; [reflexivity|discriminate]. }
  assert (Hc : canonical_name m (PyStr.strip (typed_category i))
               = match m !! category_key (typed_category i) with
                 | Some v => v
                 | None => PyStr.strip (typed_category i)
                 end).
  { unfold canonical_name. rewrite PyStrFacts.strip_idem.
    unfold category_key. now destruct (m !! _). }
  revert Hout. unfold add_new_expense. fold m.
  destruct (parse_date_input (InStr (typed_date i))) as [d|]; [|discriminate].
  destruct (_ && _); [discriminate|].
  destruct (py_float (typed_amount i)) as [a|]; [|discriminate].
  destruct (SFleb a fzero); [discriminate|].
  cbn [fst snd expense_data category_name_mapping rows].
  intros [= _ <- _ _].
  rewrite Hc, Hn, PyStrFacts.strip_idem.
  fold (category_key (typed_category i)).
  split; [reflexivity|]. split; [eexists; split; reflexivity|].
  split.
  - intros v Hv. now rewrite Hv.
  - intros Hv. now rewrite Hv.
Qed.

Lemma normalize_lookup_or_register_witness :
  reachable (L := Reference.library) example_tracker
  /\ snd (add_new_expense (L := Reference.library) example_tracker example_inputs)
     = [Added "05-04-2024" (Some "Travel") twelve_and_a_half;
        Text "Expense added locally. Save before exiting!"]
  /\ category_name_mapping
       (fst (add_new_expense (L := Reference.library)
               example_tracker example_inputs))
     = <["travel" := "Travel"]> (category_name_mapping example_tracker).
Proof.
  split; [apply reachable_init|]. split; [vm_compute; reflexivity|].
  destruct (normalize_lookup_or_register (L := Reference.library)
              example_tracker example_inputs
              "05-04-2024" (Some "Travel") twelve_and_a_half
              [Text "Expense added locally. Save before exiting!"]
              (reachable_init (Some example_file)) eq_refl)
    as (_ & _ & _ & _ & _ & _ & H).
  apply H. vm_compute. reflexivity.
Defined.

(** ** The ledger *)

Module LedgerFacts.

Lemma nonpositive_not_positive a : SFleb a fzero = true -> SFltb fzero a = false.
Proof. destruct a as [[]|[]| |[] m e]; cbn; congruence. Qed.

Lemma nan_not_positive a : isna_float a = true -> SFltb fzero a = false.
Proof. destruct a; cbn; congruence. Qed.

Lemma positive_not_nan a : SFltb fzero a = true -> isna_float a = false.
Proof. destruct a; cbn; congruence. Qed.

Lemma filter_filter {A} (p q : A -> bool) l :
  List.filter q (List.filter p l) = List.filter (fun x => p x && q x) l.
Proof.
  induction l as [|x l IH]; [reflexivity|].
  cbn [List.filter]. destruct (p x); cbn [List.filter andb]; now rewrite IH.
Qed.

Lemma filter_all {A} (p : A -> bool) l :
  (forall x, p x = true) -> List.filter p l = l.
Proof.
  intros Hp. induction l as [|x l IH]; [reflexivity|].
  cbn [List.filter]. now rewrite Hp, IH.
Qed.

End LedgerFacts.

(** C1. Every record that [load_expense_data] keeps has a date and an
    amount greater than 0.  Reading a file never fails on a row: the
    frame holds, in file order, exactly the rows whose date parses and
    whose amount is a number greater than 0, so a row whose date does
    not parse, whose amount is not a number or is not greater than 0
    is left out. *)
Theorem load_keeps_dated_positive_rows {L : Library}
    (source : option (list raw_row)) :
  Forall (fun e => Date e <> None /\ SFltb fzero (Amount e) = true)
         (rows (load_expense_data source))
  /\ forall raw,
      source = Some raw ->
      load_expense_data source
      = mkframe expense_columns
          (map convert_row
             (List.filter
                (fun r => isSome (parse_date_input (raw_Date r))
                          && SFltb fzero (to_numeric (raw_Amount r))) raw))
      /\ forall r,
          In r raw ->
          parse_date_input (raw_Date r) = None
          \/ isna_float (to_numeric (raw_Amount r)) = true
          \/ SFleb (to_numeric (raw_Amount r)) fzero = true ->
          ~ In (convert_row r) (rows (load_expense_data source)).
Proof.
  assert (Hall : Forall (fun e => Date e <> None /\ SFltb fzero (Amount e) = true)
                        (rows (load_expense_data source))).
  { destruct source as [raw|]; [|constructor]. cbn [load_expense_data rows].
    apply List.Forall_forall. intros e He.
    apply filter_In in He as [He Hp]. apply filter_In in He as [_ Hd].
    split; [|exact Hp]. unfold has_date_and_amount in Hd.
    destruct (Date e); [discriminate|discriminate Hd]. }
  split; [exact Hall|]. intros raw ->. split.
  - clear Hall. cbn [load_expense_data]. f_equal.
    rewrite LedgerFacts.filter_filter.
    induction raw as [|r raw IH]; [reflexivity|].
    cbn [map List.filter]. rewrite IH.
    unfold has_date_and_amount, positive_amount, convert_row at 1 2 3.
    cbn [Date Amount].
    destruct (parse_date_input (raw_Date r)); cbn [option_map isSome andb];
      [|reflexivity].
    destruct (SFltb fzero (to_numeric (raw_Amount r))) eqn:Ep.
    + now rewrite (LedgerFacts.positive_not_nan _ Ep).
    + now rewrite andb_false_r.
  - intros r _ Hbad Hin. rewrite List.Forall_forall in Hall.
    destruct (Hall _ Hin) as [Hd Hp]. cbn [convert_row Date Amount] in Hd, Hp.
    destruct Hbad as [E|[E|E]].
    + rewrite E in Hd. now apply Hd.
    + rewrite (LedgerFacts.nan_not_positive _ E) in Hp. discriminate.
    + rewrite (LedgerFacts.nonpositive_not_positive _ E) in Hp. discriminate.
Qed.

Lemma load_keeps_dated_positive_rows_witness :
  map Date (rows (load_expense_data (L := Reference.library) (Some example_file)))
  = [Some (mkdate 2024 3 15); Some (mkdate 2024 3 31); Some (mkdate 2024 4 1)]
  /\ ~ In (convert_row (L := Reference.library)
             (mkraw (InStr "31-02-2024") (Some "Rent") "700" (Some "no such day")))
          (rows (load_expense_data (L := Reference.library) (Some example_file))).
Proof.
  split; [vm_compute; reflexivity|].
  destruct (load_keeps_dated_positive_rows (L := Reference.library)
              (Some example_file)) as [_ H].
  destruct (H example_file eq_refl) as [_ H'].
  apply H'.
  - cbn. tauto.
  - left. vm_compute. reflexivity.
Defined.

(** C7, as the code has it.  A date that does not parse (the 31st of
    February is one) makes [add_new_expense] print the invalid-date
    line.  Once the date is in, and unless a future date is declined at
    the confirmation prompt, an amount that [float] does not read makes
    it print the not-a-number line and an amount not above 0 the
    must-be-positive line.  In each of these cases, and when a future
    date is declined, the tracker (records and table) is left as it
    was.  Otherwise exactly one record is appended, with the parsed
    date and the amount read. *)
Theorem add_new_expense_outcomes {L : Library} (self : tracker) (i : add_inputs) :
  (parse_date_input (InStr (typed_date i)) = None ->
   add_new_expense self i
   = (self, [Text "Please use a valid date format like DD-MM-YYYY"]))
  /\ (forall d,
        parse_date_input (InStr (typed_date i)) = Some d ->
        declined d i = true ->
        add_new_expense self i = (self, []))
  /\ (forall d,
        parse_date_input (InStr (typed_date i)) = Some d ->
        declined d i = false ->
        py_float (typed_amount i) = None ->
        add_new_expense self i = (self, [Text "Please enter a valid number"]))
  /\ (forall d a,
        parse_date_input (InStr (typed_date i)) = Some d ->
        declined d i = false ->
        py_float (typed_amount i) = Some a ->
        SFleb a fzero = true ->
        add_new_expense self i = (self, [Text "Amount must be positive"]))
  /\ (forall d a,
        parse_date_input (InStr (typed_date i)) = Some d ->
        declined d i = false ->
        py_float (typed_amount i) = Some a ->
        SFleb a fzero = false ->
        exists r more,
          rows (expense_data (fst (add_new_expense self i)))
          = (rows (expense_data self) ++ [r])%list
          /\ Date r = Some (date_of d) /\ Amount r = a
          /\ snd (add_new_expense self i)
             = Added (Strptime.strftime_dmY (date_of d)) (Category r) a :: more)
  /\ parse_date_input (InStr "31-02-2024") = None.
Proof.
  unfold add_new_expense, declined.
  repeat split.
  - now intros ->.
  - intros d -> ->. reflexivity.
  - intros d -> -> ->. reflexivity.
  - intros d a -> -> -> ->. reflexivity.
  - intros d a -> -> -> ->. cbn [fst snd expense_data rows].
    eexists. eexists. repeat split.
Qed.

Lemma add_new_expense_outcomes_witness :
  parse_date_input (InStr (typed_date invalid_date_inputs)) = None
  /\ add_new_expense (L := Reference.library) example_tracker invalid_date_inputs
     = (example_tracker,
        [Text "Please use a valid date format like DD-MM-YYYY"]).
Proof.
  split; [reflexivity|].
  apply (proj1 (add_new_expense_outcomes (L := Reference.library)
                  example_tracker invalid_date_inputs)).
  reflexivity.
Defined.

(** C7 as stated fails: the date is in the future and the user does not
    confirm it, so the operation returns before it looks at the amount;
    "abc" is not a number, and yet nothing is printed. *)
Lemma add_declined_future_date_gives_no_reason :
  py_float (Library := Reference.library) (typed_amount declined_inputs) = None
  /\ snd (add_new_expense (L := Reference.library) example_tracker declined_inputs)
     = []
  /\ ~ In (Text "Please enter a valid number")
          (snd (add_new_expense (L := Reference.library)
                  example_tracker declined_inputs)).
Proof.
  split; [reflexivity|]. split; [reflexivity|].
  intros H. vm_compute in H. exact H.
Qed.

(** ** The filter *)

(** No call of the filter changes the tracker. *)
Lemma filter_expenses_keeps_self (self : tracker) (ledger_dtypes : dtypes)
    (start_date end_date target_month : date_input) :
  snd (filter_expenses self ledger_dtypes start_date end_date target_month) = self.
Proof.
  unfold filter_expenses.
  repeat match goal with
         | |- context [if ?b then _ else _] => destruct b
         | |- context [match ?o with Some _ => _ | None => _ end] => destruct o
         end; reflexivity.
Qed.

(** With a month given, the bounds of the range are not looked at. *)
Lemma filter_expenses_month_first (self : tracker) (ledger_dtypes : dtypes)
    (start_date end_date start_date' end_date' target_month : date_input) :
  truthy target_month = true ->
  filter_expenses self ledger_dtypes start_date end_date target_month
  = filter_expenses self ledger_dtypes start_date' end_date' target_month.
Proof. intros H. unfold filter_expenses. now rewrite H. Qed.

(** A month given as a pandas [Timestamp] selects the records of its
    year and month, when the dates are in a datetime64 column. *)
Lemma filter_expenses_month_Timestamp (self : tracker)
    (ledger_dtypes : dtypes) (start_date end_date : date_input)
    (d : datetime) :
  Date_is_datetime64 ledger_dtypes = true ->
  filter_expenses self ledger_dtypes start_date end_date (InDate (Timestamp d))
  = (select (in_period (year d, month d)) (expense_data self), [], self).
Proof. intros H. unfold filter_expenses. cbn. now rewrite H. Qed.

(** A month given as text is parsed to a plain [datetime], on which
    [to_period] fails: whatever the text, the frame returned is empty. *)
Lemma filter_expenses_month_text (self : tracker) (ledger_dtypes : dtypes)
    (start_date end_date : date_input) (text : string) :
  PyStr.nonempty text = true ->
  fst (fst (filter_expenses self ledger_dtypes start_date end_date (InStr text)))
  = empty_DataFrame.
Proof.
  intros H. unfold filter_expenses. cbn [truthy]. rewrite H.
  unfold parse_date_input. destruct (is_blank text); [reflexivity|].
  now destruct (Strptime.first_some _ date_formats).
Qed.

(** A tracker the program can reach has a frame with columns. *)
Lemma reachable_has_columns {L : Library} (self : tracker) :
  reachable self -> columns (expense_data self) <> [].
Proof.
  induction 1 as [source|self i Hr IH].
  - unfold tracker_init, normalize_all_categories. cbn [expense_data].
    destruct (_ && _); cbn [columns]; now destruct source.
  - unfold add_new_expense.
    destruct (parse_date_input (InStr (typed_date i))); [|exact IH].
    destruct (_ && _); [exact IH|].
    destruct (py_float (typed_amount i)); [|exact IH].
    destruct (SFleb _ fzero); [exact IH|].
    cbn [fst expense_data columns]. unfold concat_columns.
    now destruct (columns (expense_data self)).
Qed.

(** C6. In the date-range filter (no month given), a bound that is
    given and does not parse makes the call print which bound is
    invalid and return the frame without columns; a call whose bounds
    are absent or parse prints nothing and returns the records within
    the bounds under the columns of the ledger, also when there are
    none.  The two differ in what is printed and, the ledger having
    columns, in the frame returned; and no call of the filter, by
    range or by month, changes the tracker. *)
Theorem filter_range_error_is_not_empty_match (self : tracker)
    (ledger_dtypes : dtypes) (start_date end_date : date_input) :
  (unparsable start_date = true ->
   filter_expenses self ledger_dtypes start_date end_date InNone
   = (empty_DataFrame,
      [Text ("Invalid start date: " ++ py_str start_date)%string], self))
  /\ (unparsable start_date = false -> unparsable end_date = true ->
      filter_expenses self ledger_dtypes start_date end_date InNone
      = (empty_DataFrame,
         [Text ("Invalid end date: " ++ py_str end_date)%string], self))
  /\ (unparsable start_date = false -> unparsable end_date = false ->
      filter_expenses self ledger_dtypes start_date end_date InNone
      = (mkframe (columns (expense_data self))
           (List.filter (within start_date end_date) (rows (expense_data self))),
         [], self))
  /\ (forall start_date' end_date',
        unparsable start_date || unparsable end_date = true ->
        unparsable start_date' || unparsable end_date' = false ->
        snd (fst (filter_expenses self ledger_dtypes start_date end_date InNone))
        <> snd (fst (filter_expenses self ledger_dtypes
                       start_date' end_date' InNone)))
  /\ (forall start_date' end_date',
        unparsable start_date || unparsable end_date = true ->
        unparsable start_date' || unparsable end_date' = false ->
        columns (expense_data self) <> [] ->
        fst (fst (filter_expenses self ledger_dtypes start_date end_date InNone))
        <> fst (fst (filter_expenses self ledger_dtypes
                       start_date' end_date' InNone)))
  /\ (forall target_month,
        snd (filter_expenses self ledger_dtypes
               start_date end_date target_month) = self).
Proof.
  assert (H1 : forall s e, unparsable s = true ->
             filter_expenses self ledger_dtypes s e InNone
             = (empty_DataFrame,
                [Text ("Invalid start date: " ++ py_str s)%string], self)).
  { intros s e. unfold unparsable, filter_expenses. cbn [truthy].
    destruct (truthy s); [|discriminate]. cbn [andb orb].
    destruct (parse_date_input s); [discriminate|reflexivity]. }
  assert (H2 : forall s e, unparsable s = false -> unparsable e = true ->
             filter_expenses self ledger_dtypes s e InNone
             = (empty_DataFrame,
                [Text ("Invalid end date: " ++ py_str e)%string], self)).
  { intros s e. unfold unparsable, filter_expenses. cbn [truthy].
    destruct (truthy e); [|discriminate]. rewrite orb_true_r. cbn [andb].
    destruct (parse_date_input e); [discriminate|]. intros Hs _.
    destruct (truthy s); cbn [andb] in *; [|reflexivity].
    destruct (parse_date_input s); [reflexivity|discriminate]. }
  assert (H3 : forall s e, unparsable s = false -> unparsable e = false ->
             filter_expenses self ledger_dtypes s e InNone
             = (mkframe (columns (expense_data self))
                  (List.filter (within s e) (rows (expense_data self))),
                [], self)).
  { intros s e. unfold unparsable, filter_expenses, within, bound_date, select.
    cbn [truthy]. destruct (expense_data self) as [cols rs]. cbn [columns rows].
    assert (Hid : List.filter (fun _ : expense => true) rs = rs)
      by (now apply LedgerFacts.filter_all).
    destruct (truthy s), (truthy e); cbn [andb orb];
      try destruct (parse_date_input s) as [ds|];
      try destruct (parse_date_input e) as [de|];
      cbn [isSome negb option_map columns rows]; try discriminate; intros _ _;
      rewrite ?LedgerFacts.filter_filter, ?Hid; try reflexivity;
      match goal with
      | |- (mkframe _ ?a, _, _) = (mkframe _ ?b, _, _) =>
          assert (E : a = b); [|rewrite E; reflexivity]
      end;
      apply filter_ext; intros x; now rewrite ?andb_true_r. }
  split; [apply H1|]. split; [apply H2|]. split; [apply H3|].
  split; [|split; [|intros m; apply filter_expenses_keeps_self]].
  - intros s' e' Hbad Hok. apply orb_false_elim in Hok as [Hs' He'].
    rewrite (H3 s' e' Hs' He'). cbn [fst snd].
    destruct (unparsable start_date) eqn:Es.
    + rewrite (H1 _ end_date Es). discriminate.
    + cbn [orb] in Hbad. rewrite (H2 _ _ Es Hbad). discriminate.
  - intros s' e' Hbad Hok Hcols. apply orb_false_elim in Hok as [Hs' He'].
    rewrite (H3 s' e' Hs' He'). cbn [fst snd].
    assert (fst (fst (filter_expenses self ledger_dtypes start_date end_date InNone))
            = empty_DataFrame) as ->.
    { destruct (unparsable start_date) eqn:Es.
      - now rewrite (H1 _ end_date Es).
      - cbn [orb] in Hbad. now rewrite (H2 _ _ Es Hbad). }
    intros E. apply Hcols. now injection E.
Qed.

Lemma filter_range_error_is_not_empty_match_witness :
  unparsable (InStr "yesterday") = true
  /\ filter_expenses march_tracker (mkdtypes true true)
       (InStr "yesterday") (InStr "") InNone
     = (empty_DataFrame, [Text "Invalid start date: yesterday"], march_tracker)
  /\ filter_expenses march_tracker (mkdtypes true true)
       (InStr "01-01-2025") (InStr "") InNone
     = (mkframe expense_columns [], [], march_tracker).
Proof.
  split; [reflexivity|].
  destruct (filter_range_error_is_not_empty_match march_tracker
              (mkdtypes true true) (InStr "yesterday") (InStr ""))
    as (H & _).
  split; [exact (H eq_refl)|].
  destruct (filter_range_error_is_not_empty_match march_tracker
              (mkdtypes true true) (InStr "01-01-2025") (InStr ""))
    as (_ & _ & H' & _).
  exact (H' eq_refl eq_refl).
Defined.

(** C10, at the input where the code departs from it: the ledger has
    two records in March 2024; the month "2024-03" parses, to a plain
    [datetime]; the filter returns the frame without rows or columns. *)
Theorem filter_month_text_returns_nothing :
  parse_date_input (InStr "2024-03") = Some (Datetime (mkdate 2024 3 1))
  /\ filter_expenses march_tracker (mkdtypes true true)
       InNone InNone (InStr "2024-03")
     = (empty_DataFrame, [], march_tracker)
  /\ rows (select (in_period (2024, 3)) (expense_data march_tracker))
     = [mkexpense (Some (mkdate 2024 3 1)) (Some "Food") (float_of_Z 10) (Some "");
        mkexpense (Some (mkdate 2024 3 31)) (Some "Food") (float_of_Z 10) (Some "")].
Proof. repeat split. Qed.

(** ** The category analysis *)

Module AnalysisFacts.

Lemma str_lt_trans a b c : str_lt a b -> str_lt b c -> str_lt a c.
Proof.
  unfold str_lt. intros H1 H2.
  apply String_as_OT.cmp_lt. apply String_as_OT.cmp_lt in H1, H2.
  eapply String_as_OT.lt_trans; eassumption.
Qed.

Lemma str_lt_irrefl a : ~ str_lt a a.
Proof.
  unfold str_lt. intros H.
  assert (String.compare a a = Eq) by now apply String_as_OT.cmp_eq.
  congruence.
Qed.

Lemma compare_Gt a b : String.compare a b = Gt -> str_lt b a.
Proof. unfold str_lt. rewrite (String.compare_antisym b a). now intros ->. Qed.

Lemma assoc_above k g : Forall (str_lt k) (map fst g) -> assoc k g = None.
Proof.
  induction g as [|[k' l] g IH]; [reflexivity|].
  cbn [map fst assoc]. intros H. inversion H as [|? ? Hk Hg]; subst.
  destruct (String.eqb_spec k k') as [->|_]; [|now apply IH].
  now apply str_lt_irrefl in Hk.
Qed.

Lemma group_insert_keys k a g k' :
  In k' (map fst (group_insert k a g)) <-> k' = k \/ In k' (map fst g).
Proof.
  induction g as [|[k0 l0] g IH]; cbn [group_insert map fst In].
  - intuition.
  - destruct (String.compare k k0) eqn:E; cbn [map fst In].
    + apply String.compare_eq_iff in E as ->. intuition.
    + intuition.
    + rewrite IH. intuition.
Qed.

Lemma group_insert_sorted k a g :
  StronglySorted str_lt (map fst g) ->
  StronglySorted str_lt (map fst (group_insert k a g)).
Proof.
  induction g as [|[k0 l0] g IH]; cbn [group_insert map fst].
  - intros _. repeat constructor.
  - intros H. inversion H as [|? ? Hs Hf]; subst.
    destruct (String.compare k k0) eqn:E; cbn [map fst].
    + exact H.
    + constructor; [exact H|]. constructor; [exact E|].
      eapply Forall_impl; [exact Hf|]. intros x. now apply str_lt_trans.
    + constructor; [now apply IH|].
      apply List.Forall_forall. intros x Hx.
      apply group_insert_keys in Hx as [->|Hx].
      * now apply compare_Gt.
      * rewrite List.Forall_forall in Hf. now apply Hf.
Qed.

Lemma group_insert_assoc k a g k' :
  StronglySorted str_lt (map fst g) ->
  assoc k' (group_insert k a g)
  = if String.eqb k' k
    then Some (match assoc k g with Some l => l | None => [] end ++ [a])%list
    else assoc k' g.
Proof.
  induction g as [|[k0 l0] g IH]; cbn [group_insert map fst assoc].
  - intros _. reflexivity.
  - intros H. inversion H as [|? ? Hs Hf]; subst.
    destruct (String.compare k k0) eqn:E; cbn [assoc].
    + apply String.compare_eq_iff in E as ->. rewrite String.eqb_refl.
      now destruct (String.eqb k' k0).
    + assert (String.eqb k k0 = false) as ->.
      { apply String.eqb_neq. intros ->. now apply str_lt_irrefl in E. }
      rewrite (assoc_above k g); [reflexivity|].
      eapply Forall_impl; [exact Hf|]. intros x. now apply str_lt_trans.
    + assert (String.eqb k k0 = false) as Hne.
      { apply String.eqb_neq. intros ->. apply compare_Gt in E.
        now apply str_lt_irrefl in E. }
      rewrite Hne, (IH Hs).
      destruct (String.eqb_spec k' k0) as [->|]; [|reflexivity].
      rewrite String.eqb_sym in Hne. now rewrite Hne.
Qed.

Lemma amounts_of_snoc c data e :
  amounts_of c (data ++ [e])
  = (amounts_of c data ++ if has_category c e then [Amount e] else [])%list.
Proof.
  unfold amounts_of. rewrite List.filter_app, map_app. cbn [List.filter].
  now destruct (has_category c e).
Qed.

(** [groupby]: the keys in ascending order, and under each key the
    amounts of its records in ledger order. *)
Lemma groupby_spec data :
  StronglySorted str_lt (map fst (groupby_Category data))
  /\ forall k,
      assoc k (groupby_Category data)
      = match amounts_of k data with
        | [] => None
        | l => Some l
        end.
Proof.
  unfold groupby_Category.
  induction data as [|e data [IHs IHa]] using rev_ind.
  - split; [constructor | reflexivity].
  - rewrite fold_left_app. cbn [fold_left]. unfold group_row at 1 3.
    split.
    + destruct (Category e); [now apply group_insert_sorted | exact IHs].
    + intros k. rewrite amounts_of_snoc. unfold has_category.
      destruct (Category e) as [c|].
      * rewrite (group_insert_assoc _ _ _ _ IHs), IHa, String.eqb_sym.
        destruct (String.eqb_spec c k) as [->|_].
        -- destruct (amounts_of k data); reflexivity.
        -- rewrite app_nil_r. apply IHa.
      * rewrite app_nil_r. apply IHa.
Qed.

Lemma assoc_In k l g :
  StronglySorted str_lt (map fst g) -> In (k, l) g -> assoc k g = Some l.
Proof.
  induction g as [|[k0 l0] g IH]; [intros _ []|].
  cbn [map fst assoc In]. intros H [Hi|Hi]; inversion H as [|? ? Hs Hf]; subst.
  - injection Hi as -> ->. now rewrite String.eqb_refl.
  - destruct (String.eqb_spec k k0) as [->|_]; [|now apply IH].
    exfalso. rewrite List.Forall_forall in Hf.
    apply (str_lt_irrefl k0), Hf. apply in_map_iff. now exists (k0, l).
Qed.

Lemma In_assoc k l g : assoc k g = Some l -> In (k, l) g.
Proof.
  induction g as [|[k0 l0] g IH]; [discriminate|].
  cbn [assoc]. destruct (String.eqb_spec k k0) as [->|_].
  - intros [= ->]. now left.
  - intros H. right. now apply IH.
Qed.

Lemma sorted_NoDup ks : StronglySorted str_lt ks -> List.NoDup ks.
Proof.
  induction 1 as [|k ks Hs IH Hf]; constructor; [|exact IH].
  intros Hi. rewrite List.Forall_forall in Hf.
  exact (str_lt_irrefl k (Hf k Hi)).
Qed.

Lemma amounts_of_nonempty c data :
  amounts_of c data <> [] <-> exists e, In e data /\ Category e = Some c.
Proof.
  unfold amounts_of. split.
  - destruct (List.filter (has_category c) data) as [|e l] eqn:E;
      [intros H; now contradiction H|].
    intros _. assert (In e (List.filter (has_category c) data)) as Hi
      by (rewrite E; now left).
    apply filter_In in Hi as [Hi Hc]. exists e. split; [exact Hi|].
    unfold has_category in Hc. destruct (Category e) as [c'|]; [|discriminate].
    apply String.eqb_eq in Hc. now subst.
  - intros (e & Hi & Hc) E.
    assert (In e (List.filter (has_category c) data)) as Hf.
    { apply filter_In. split; [exact Hi|]. unfold has_category.
      rewrite Hc. apply String.eqb_refl. }
    destruct (List.filter (has_category c) data); [destruct Hf|discriminate].
Qed.

Lemma SFcompare_antisym x y :
  SFcompare y x = option_map CompOpp (SFcompare x y).
Proof.
  destruct x as [[]|[]| |[] m e], y as [[]|[]| |[] m' e'];
    try reflexivity; unfold SFcompare, option_map; f_equal;
    rewrite (Z.compare_antisym e e'); destruct (e ?= e')%Z; try reflexivity;
    change (Pos.compare_cont Eq m' m) with (Pos.compare m' m);
    change (Pos.compare_cont Eq m m') with (Pos.compare m m');
    rewrite (Pos.compare_antisym m m'); cbn [CompOpp];
    now destruct (Pos.compare m m').
Qed.

Lemma SFltb_asym x y : SFltb x y = true -> SFltb y x = false.
Proof.
  unfold SFltb. rewrite (SFcompare_antisym x y).
  now destruct (SFcompare x y) as [[]|].
Qed.

Lemma insert_desc_perm x l : Permutation (x :: l) (Reference.insert_desc x l).
Proof.
  induction l as [|y l IH]; [reflexivity|]. cbn [Reference.insert_desc].
  destruct (SFltb _ _); [|reflexivity].
  rewrite perm_swap. now apply perm_skip.
Qed.

Lemma insert_desc_sorted x l :
  Sorted not_below l -> Sorted not_below (Reference.insert_desc x l).
Proof.
  induction l as [|y l IH]; [repeat constructor|].
  intros H. cbn [Reference.insert_desc].
  destruct (SFltb (total_amount x) (total_amount y)) eqn:E.
  - inversion H as [|? ? Hs Hh]; subst. constructor; [now apply IH|].
    destruct l as [|z l]; cbn [Reference.insert_desc].
    + constructor. now apply SFltb_asym.
    + destruct (SFltb (total_amount x) (total_amount z));
        constructor; [now inversion Hh | now apply SFltb_asym].
  - constructor; [exact H|]. constructor. exact E.
Qed.

(** The reference sort is a sort. *)
Lemma reference_sorts_descending : sorts_descending Reference.library.
Proof.
  intros l. cbn [sort_values Reference.library].
  unfold Reference.stable_sort_desc. induction l as [|x l [IHp IHs]].
  - split; constructor.
  - cbn [fold_right]. split.
    + rewrite <- insert_desc_perm. now apply perm_skip.
    + now apply insert_desc_sorted.
Qed.

End AnalysisFacts.

(** C5, as the code has it.  On a ledger that is not empty and whose
    amounts are in a numeric column, whatever sort [sort_values] is,
    the report is the sorted list of the groups that [groupby] forms,
    one for each category some record has, in ascending order of the
    category; a row carries the sum and the number of the amounts of
    its category, and the percentage [round(total / overall * 100, 2)],
    [overall] being the sum of the totals; the rows come in descending
    order of total.  Nothing is promised on rows of equal total. *)
Theorem analyze_categories_report {L : Library} (self : tracker)
    (ledger_dtypes : dtypes) :
  sorts_descending L ->
  is_empty (expense_data self) = false ->
  Amount_is_numeric ledger_dtypes = true ->
  exists groups report,
    analyze_categories self ledger_dtypes = Report report
    /\ report = sort_values groups
    /\ StronglySorted str_lt (map report_category groups)
    /\ Permutation groups report
    /\ Sorted not_below report
    /\ List.NoDup (map report_category report)
    /\ (forall c,
          In c (map report_category report) <->
          exists e, In e (rows (expense_data self)) /\ Category e = Some c)
    /\ (forall r,
          In r report ->
          let amounts := amounts_of (report_category r) (rows (expense_data self)) in
          total_amount r = group_sum amounts
          /\ transaction_count r = length amounts
          /\ percentage r
             = round2 (fmul (fdiv (total_amount r)
                                  (series_sum (map total_amount groups)))
                            (float_of_Z 100))).
Proof.
  intros Hsort Hne Hnum.
  set (data := rows (expense_data self)).
  set (g := groupby_Category data).
  destruct (AnalysisFacts.groupby_spec data) as [Hs Ha]. fold g in Hs, Ha.
  set (overall := series_sum (map (fun x => group_sum (snd x)) g)).
  set (row := fun x : string * list spec_float =>
                mkreport (fst x) (group_sum (snd x)) (length (snd x))
                  (round2 (fmul (fdiv (group_sum (snd x)) overall)
                                (float_of_Z 100)))).
  assert (Hrep : category_report self = sort_values (map row g))
    by reflexivity.
  assert (Hkeys : map report_category (map row g) = map fst g).
  { rewrite map_map. now apply map_ext. }
  assert (Htot : map total_amount (map row g)
                 = map (fun x => group_sum (snd x)) g).
  { rewrite map_map. now apply map_ext. }
  destruct (Hsort (map row g)) as [Hperm Hdesc].
  assert (Hgroup : forall k l, In (k, l) g -> l = amounts_of k data /\ l <> []).
  { intros k l Hi. apply (AnalysisFacts.assoc_In _ _ _ Hs) in Hi.
    rewrite Ha in Hi. destruct (amounts_of k data); [discriminate|].
    injection Hi as <-. split; [reflexivity|discriminate]. }
  exists (map row g), (category_report self).
  split; [unfold analyze_categories; now rewrite Hne, Hnum|].
  rewrite Hrep, Htot, Hkeys.
  split; [reflexivity|]. split; [exact Hs|]. split; [exact Hperm|].
  split; [exact Hdesc|]. split; [|split].
  - apply (Permutation_NoDup (l := map report_category (map row g))).
    + now apply Permutation_map.
    + rewrite Hkeys. now apply AnalysisFacts.sorted_NoDup.
  - intros c.
    assert (In c (map report_category (sort_values (map row g)))
            <-> In c (map fst g)) as ->.
    { rewrite <- Hkeys. split; apply Permutation_in, Permutation_map;
        [symmetry|]; exact Hperm. }
    rewrite <- AnalysisFacts.amounts_of_nonempty. fold data. split.
    + intros Hi. apply in_map_iff in Hi as ([k l] & <- & Hi). cbn [fst].
      destruct (Hgroup _ _ Hi) as [<- Hl]. exact Hl.
    + intros Hc. specialize (Ha c). destruct (amounts_of c data) as [|a l];
        [now contradiction Hc|].
      apply AnalysisFacts.In_assoc in Ha. apply in_map_iff. now exists (c, a :: l).
  - intros r Hr. apply (Permutation_in _ (Permutation_sym Hperm)) in Hr.
    apply in_map_iff in Hr as ([k l] & <- & Hi).
    destruct (Hgroup _ _ Hi) as [-> _]. cbn. fold data. repeat split.
Qed.

(** The report of a file with four rows in three categories: Rent,
    Food, Books. *)
Lemma analyze_categories_report_witness :
  sorts_descending Reference.library
  /\ is_empty (expense_data shop_tracker) = false
  /\ Amount_is_numeric (load_dtypes (Some shop_file)) = true
  /\ exists report,
       analyze_categories (L := Reference.library) shop_tracker
         (load_dtypes (Some shop_file)) = Report report
       /\ map report_category report = ["Rent"; "Food"; "Books"]
       /\ map transaction_count report = [1; 2; 1]%nat
       /\ Sorted not_below report.
Proof.
  split; [exact AnalysisFacts.reference_sorts_descending|].
  split; [reflexivity|]. split; [reflexivity|].
  destruct (analyze_categories_report (L := Reference.library) shop_tracker
              (load_dtypes (Some shop_file))
              AnalysisFacts.reference_sorts_descending eq_refl eq_refl)
    as (groups & report & Ha & _ & _ & _ & H & _).
  exists report. split; [exact Ha|].
  vm_compute in Ha. injection Ha as <-.
  split; [reflexivity|]. split; [reflexivity|]. exact H.
Defined.

(** C5 as stated fails on ties.  Food is seen first, Books second, 10
    each, in a numeric column: [groupby] puts Books before Food, and a
    sort that keeps rows of equal total as it finds them (numpy's
    default does on so short an array) leaves Books first. *)
Lemma analyze_categories_ties_not_first_seen :
  categories (rows (expense_data tie_tracker)) = ["Food"; "Books"]
  /\ analyze_categories (L := Reference.library) tie_tracker
       (mkdtypes true true)
     = Report (category_report (L := Reference.library) tie_tracker)
  /\ map report_category (category_report (L := Reference.library) tie_tracker)
     = ["Books"; "Food"]
  /\ ~ ties_first_seen (rows (expense_data tie_tracker))
         (category_report (L := Reference.library) tie_tracker).
Proof.
  split; [reflexivity|]. split; [reflexivity|].
  split; [vm_compute; reflexivity|].
  intros H.
  let rep := eval vm_compute in
               (category_report (L := Reference.library) tie_tracker) in
  match rep with
  | [?a; ?b] =>
      assert (E : category_report (L := Reference.library) tie_tracker
                  = ([] ++ a :: [] ++ b :: [])%list)
        by (vm_compute; reflexivity);
      specialize (H [] a [] b [] E)
  end.
  destruct H as (l1 & l2 & E' & Hn); [vm_compute; reflexivity|].
  cbn in E'. destruct l1 as [|x l1]; cbn in E'.
  - discriminate.
  - injection E' as <- _. apply Hn. now left.
Qed.

(** * Further properties *)

(** ** More on the date parser *)

Module DateParserMore.
Import Strptime.

Lemma days_in_month_28 y m : 28 <= days_in_month y m <= 31.
Proof.
  unfold days_in_month.
  repeat match goal with |- context [if ?b then _ else _] => destruct b end;
    lia.
Qed.

Lemma valid_ymd_iff y m d :
  valid_ymd y m d = true <->
  1 <= y <= 9999 /\ 1 <= m <= 12 /\ 1 <= d <= days_in_month y m.
Proof.
  unfold valid_ymd. rewrite !andb_true_iff, !Z.leb_le. tauto.
Qed.

Lemma strptime_valid c fmt d : strptime c fmt = Some d -> valid_date d.
Proof.
  unfold strptime, valid_date. destruct (compile fmt); [|discriminate].
  destruct (match_items _ c init) as [[f []]|]; try discriminate.
  destruct (valid_ymd (fY f) (fm f) (fd f)) eqn:E; [|discriminate].
  now intros [= <-].
Qed.

Lemma replace_day_1_valid d : valid_date d -> valid_date (replace_day_1 d).
Proof.
  unfold valid_date, replace_day_1. cbn [year month day].
  rewrite !valid_ymd_iff. pose proof (days_in_month_28 (year d) (month d)). lia.
Qed.

Lemma keep_idem p s : PyStr.keep p (PyStr.keep p s) = PyStr.keep p s.
Proof.
  induction s as [|c r IH]; [reflexivity|]. cbn [PyStr.keep].
  destruct (p c) eqn:E; [|exact IH]. cbn [PyStr.keep]. now rewrite E, IH.
Qed.

Lemma keep_head p s c r : PyStr.keep p s = String c r -> p c = true.
Proof.
  induction s as [|c' r' IH]; [discriminate|]. cbn [PyStr.keep].
  destruct (p c') eqn:E; [|exact IH]. now intros [= <- _].
Qed.

Lemma space_not_date_char c : PyStr.is_space c = true -> date_char c = false.
Proof.
  destruct c as [[] [] [] [] [] [] [] []]; vm_compute; congruence.
Qed.

Lemma clean_lstrip s :
  clean_date_input (PyStr.lstrip s) = clean_date_input s.
Proof.
  unfold clean_date_input. induction s as [|c r IH]; [reflexivity|].
  cbn [PyStr.lstrip]. destruct (PyStr.is_space c) eqn:E; [|reflexivity].
  cbn [PyStr.keep]. now rewrite (space_not_date_char c E).
Qed.

Lemma clean_rstrip_empty s : PyStr.rstrip s = "" -> clean_date_input s = "".
Proof.
  unfold clean_date_input. induction s as [|c r IH]; [reflexivity|].
  cbn [PyStr.rstrip PyStr.keep]. destruct (PyStr.rstrip r); [|discriminate].
  destruct (PyStr.is_space c) eqn:E; [|discriminate].
  intros _. rewrite (space_not_date_char c E). now apply IH.
Qed.

Lemma blank_clean s : is_blank s = true -> clean_date_input s = "".
Proof.
  unfold is_blank. intros H. apply orb_prop in H as [H|H].
  - now destruct s.
  - apply String.eqb_eq in H. rewrite <- clean_lstrip.
    now apply clean_rstrip_empty.
Qed.

Lemma clean_blank s :
  is_blank (clean_date_input s) = true -> clean_date_input s = "".
Proof.
  destruct (clean_date_input s) as [|c r] eqn:E; [reflexivity|].
  apply keep_head in E. intros H. exfalso.
  unfold is_blank in H. cbn [PyStr.nonempty negb orb] in H.
  assert (PyStr.is_space c = false) as Hc.
  { destruct (PyStr.is_space c) eqn:Es; [|reflexivity].
    apply space_not_date_char in Es. congruence. }
  rewrite (PyStrFacts.strip_head_nonempty c r Hc) in H. discriminate.
Qed.

(** A day or month field cannot start a text that starts with three
    digits. *)
Lemma match_field_then_digit d a b c r sep its acc :
  d <> DY -> PyStr.is_digit b = true -> PyStr.is_digit c = true ->
  PyStr.is_digit sep = false ->
  match_items (Dir d :: Lit sep :: its) (String a (String b (String c r))) acc
  = None.
Proof.
  intros Hd Hb Hc Hs. rewrite DateParserFacts.match_items_Dir.
  pose proof (DateParserFacts.sep_not_digit sep b Hs Hb) as Eb.
  pose proof (DateParserFacts.sep_not_digit sep c Hs Hc) as Ec.
  destruct d; [| |contradiction]; unfold alternatives;
    repeat match goal with
           | |- context [opt_to_list (if ?x then _ else _)] => destruct x
           end;
    cbn [opt_to_list app first_some fst snd];
    rewrite ?DateParserFacts.match_Lit_test, ?Eb, ?Ec; reflexivity.
Qed.

End DateParserMore.

Lemma parse_text_calendar (s : string) (v : date_value) :
  parse_date_input (InStr s) = Some v ->
  exists d, v = Datetime d /\ valid_date d.
Proof.
  unfold parse_date_input. destruct (is_blank s); [discriminate|].
  destruct (Strptime.first_some _ date_formats) as [x|] eqn:E; [|discriminate].
  intros [= <-]. exists x. split; [reflexivity|].
  apply DateParserFacts.first_some_first_match in E as (fmt & dt & Hm & ->).
  assert (valid_date dt) as Hv.
  { clear -Hm. induction Hm as [fmt rest dt H|]; [|assumption].
    now apply DateParserMore.strptime_valid in H. }
  destruct (string_in fmt month_only_formats); [|exact Hv].
  now apply DateParserMore.replace_day_1_valid.
Qed.

(** What the parser returns for a text is a plain [datetime] of a day
    that the calendar has. *)
Theorem parse_date_input_gives_calendar_date (s : string) (v : date_value) :
  parse_date_input (InStr s) = Some v ->
  exists d, v = Datetime d /\ valid_date d.
Proof. exact (parse_text_calendar s v). Qed.

Lemma parse_date_input_gives_calendar_date_witness :
  parse_date_input (InStr "29/02/2024") = Some (Datetime (mkdate 2024 2 29))
  /\ exists d, Datetime (mkdate 2024 2 29) = Datetime d /\ valid_date d.
Proof.
  split; [reflexivity|].
  exact (parse_date_input_gives_calendar_date "29/02/2024" _ eq_refl).
Defined.

(** The parser does not see the characters outside [[0-9/.-]]: a text
    and what is left of it without them parse alike. *)
Theorem parse_date_input_ignores_other_characters (s : string) :
  parse_date_input (InStr s) = parse_date_input (InStr (clean_date_input s)).
Proof.
  assert (Hnone : Strptime.first_some (try_format "") date_formats = None)
    by (vm_compute; reflexivity).
  unfold parse_date_input.
  destruct (is_blank s) eqn:Es.
  - rewrite (DateParserMore.blank_clean s Es). reflexivity.
  - destruct (is_blank (clean_date_input s)) eqn:Ec.
    + rewrite (DateParserMore.clean_blank s Ec), Hnone. reflexivity.
    + unfold clean_date_input at 2. now rewrite DateParserMore.keep_idem.
Qed.

Module DateParserTexts.
Import Strptime.

Lemma digits_of_year y :
  0 <= y <= 9999 ->
  0 <= y / 1000 <= 9 /\ 0 <= y / 100 mod 10 <= 9
  /\ 0 <= y / 10 mod 10 <= 9 /\ 0 <= y mod 10 <= 9.
Proof. intros Hy. repeat split; Z.div_mod_to_equations; lia. Qed.

Lemma digits_of_field n :
  0 <= n <= 99 -> 0 <= n / 10 <= 9 /\ 0 <= n mod 10 <= 9.
Proof. intros Hn. repeat split; Z.div_mod_to_equations; lia. Qed.

Lemma digit_is_digit k : 0 <= k <= 9 -> PyStr.is_digit (digit k) = true.
Proof. intros Hk. now apply DateParserFacts.digit_ok. Qed.

Lemma try_format_three_digits fmt a b c r :
  In fmt (day_month_year ++ month_day_year)%list ->
  PyStr.is_digit b = true -> PyStr.is_digit c = true ->
  try_format (String a (String b (String c r))) fmt = None.
Proof.
  intros Hin Hb Hc. apply DateParserFacts.try_format_None.
  unfold strptime.
  cbn in Hin. decompose [or] Hin; subst; try contradiction;
    match goal with
    | |- context [compile ?f] =>
        let its := eval vm_compute in (compile f) in
        change (compile f) with its
    end;
    cbv beta iota;
    now rewrite DateParserMore.match_field_then_digit.
Qed.

Lemma last_day n acc :
  1 <= n <= 31 ->
  match_items [Dir Dd] (pad2 n "") acc = Some (set_field Dd n acc, "").
Proof.
  intros Hn. rewrite DateParserFacts.match_items_Dir,
    DateParserFacts.day_alternatives by assumption.
  reflexivity.
Qed.

Lemma last_year y acc :
  0 <= y <= 9999 ->
  match_items [Dir DY] (pad4 y "") acc = Some (set_field DY y acc, "").
Proof.
  intros Hy. rewrite DateParserFacts.match_items_Dir,
    DateParserFacts.year_alternatives by assumption.
  reflexivity.
Qed.

Lemma strptime_isoformat d :
  valid_date d -> strptime (isoformat d) "%Y-%m-%d" = Some d.
Proof.
  intros Hv. destruct (DateParserFacts.valid_bounds d Hv) as (Hy & Hm & Hd).
  unfold valid_date in Hv. unfold strptime, isoformat.
  change (compile "%Y-%m-%d")
    with (Some [Dir DY; Lit "-"%char; Dir Dm; Lit "-"%char; Dir Dd]).
  cbv beta iota.
  rewrite DateParserFacts.match_items_Dir, DateParserFacts.year_alternatives
    by lia.
  cbn [first_some fst snd]. rewrite DateParserFacts.match_items_Lit.
  rewrite DateParserFacts.match_field_sep
    by (try apply DateParserFacts.month_alternatives; lia).
  rewrite last_day by lia.
  cbn [set_field init fY fm fd]. rewrite Hv. now destruct d.
Qed.

Lemma text_of_digits_clean s :
  Forall (fun c => date_char c = true) (list_ascii_of_string s) ->
  clean_date_input s = s.
Proof. apply PyStrFacts.keep_all. Qed.

End DateParserTexts.

(** A day written YYYY-MM-DD is read as that day: no day-first or
    month-first format takes a text that starts with the four digits of
    a year. *)
Theorem parse_date_input_reads_isoformat (d : datetime) :
  valid_date d ->
  parse_date_input (InStr (isoformat d)) = Some (Datetime d).
Proof.
  intros Hv. destruct (DateParserFacts.valid_bounds d Hv) as (Hy & Hm & Hd).
  destruct (DateParserTexts.digits_of_year (year d)) as (Y1 & Y2 & Y3 & Y4);
    [lia|].
  destruct (DateParserTexts.digits_of_field (month d)) as (M1 & M2); [lia|].
  destruct (DateParserTexts.digits_of_field (day d)) as (D1 & D2); [lia|].
  assert (Hclean : clean_date_input (isoformat d) = isoformat d).
  { apply DateParserTexts.text_of_digits_clean.
    unfold isoformat, Strptime.pad2, Strptime.pad4. cbn [list_ascii_of_string].
    repeat (constructor;
            [first [reflexivity | now apply DateParserFacts.date_char_digit]|]).
    constructor. }
  unfold parse_date_input.
  assert (is_blank (isoformat d) = false) as ->.
  { unfold is_blank, isoformat, Strptime.pad4. cbn [PyStr.nonempty negb orb].
    apply PyStrFacts.strip_head_nonempty. now apply DateParserFacts.digit_ok. }
  rewrite Hclean. unfold date_formats. cbn [Strptime.first_some].
  unfold isoformat at 1 2 3 4 5 6. unfold Strptime.pad4 at 1 2 3 4 5 6.
  rewrite !DateParserTexts.try_format_three_digits
    by (first [now apply DateParserTexts.digit_is_digit
              | cbn; repeat (first [left; reflexivity | right])]).
  fold (Strptime.pad4 (year d)
          (String "-" (Strptime.pad2 (month d)
             (String "-" (Strptime.pad2 (day d) ""))))).
  fold (isoformat d). unfold try_format at 1.
  now rewrite (DateParserTexts.strptime_isoformat d Hv).
Qed.

Lemma parse_date_input_reads_isoformat_witness :
  valid_date (mkdate 2024 12 5)
  /\ parse_date_input (InStr "2024-12-05") = Some (Datetime (mkdate 2024 12 5)).
Proof.
  split; [reflexivity|].
  exact (parse_date_input_reads_isoformat (mkdate 2024 12 5) eq_refl).
Defined.

Module MonthFirstTexts.
Import Strptime.

Lemma not_blank_clean d :
  valid_date d ->
  is_blank (month_first d) = false
  /\ clean_date_input (month_first d) = month_first d.
Proof.
  intros Hv. destruct (DateParserFacts.valid_bounds d Hv) as (Hy & Hm & Hd).
  destruct (DateParserTexts.digits_of_year (year d)) as (Y1 & Y2 & Y3 & Y4);
    [lia|].
  destruct (DateParserTexts.digits_of_field (month d)) as (M1 & M2); [lia|].
  destruct (DateParserTexts.digits_of_field (day d)) as (D1 & D2); [lia|].
  split.
  - unfold is_blank, month_first, pad2. cbn [PyStr.nonempty negb orb].
    apply PyStrFacts.strip_head_nonempty. now apply DateParserFacts.digit_ok.
  - apply DateParserTexts.text_of_digits_clean.
    unfold month_first, pad2, pad4. cbn [list_ascii_of_string].
    repeat (constructor;
            [first [reflexivity | now apply DateParserFacts.date_char_digit]|]).
    constructor.
Qed.

(** The formats whose separator is not "/" stop at the first "/". *)
Lemma other_separator d fmt :
  valid_date d ->
  In fmt ["%d-%m-%Y"; "%d.%m.%Y"; "%m-%d-%Y"] ->
  strptime (month_first d) fmt = None.
Proof.
  intros Hv Hin. destruct (DateParserFacts.valid_bounds d Hv) as (Hy & Hm & Hd).
  unfold strptime, month_first.
  cbn in Hin. decompose [or] Hin; subst; try contradiction;
    match goal with
    | |- context [compile ?f] =>
        let its := eval vm_compute in (compile f) in
        change (compile f) with its
    end;
    cbv beta iota;
    rewrite DateParserFacts.match_field_any_sep
      by first [ lia | reflexivity
               | apply DateParserFacts.day_alternatives; lia
               | apply DateParserFacts.month_alternatives; lia ];
    reflexivity.
Qed.

Lemma day_first_high d :
  valid_date d -> 13 <= day d ->
  strptime (month_first d) "%d/%m/%Y" = None.
Proof.
  intros Hv H13. destruct (DateParserFacts.valid_bounds d Hv) as (Hy & Hm & Hd).
  unfold strptime, month_first.
  change (compile "%d/%m/%Y")
    with (Some [Dir Dd; Lit "/"%char; Dir Dm; Lit "/"%char; Dir DY]).
  cbv beta iota.
  rewrite DateParserFacts.match_field_any_sep
    by first [ lia | reflexivity | apply DateParserFacts.day_alternatives; lia ].
  rewrite Ascii.eqb_refl.
  now rewrite DateParserFacts.match_month_high by (lia || reflexivity).
Qed.

Lemma day_first_low d :
  valid_date d -> day d <= 12 ->
  strptime (month_first d) "%d/%m/%Y"
  = Some (mkdate (year d) (day d) (month d)).
Proof.
  intros Hv H12. destruct (DateParserFacts.valid_bounds d Hv) as (Hy & Hm & Hd).
  unfold strptime, month_first.
  change (compile "%d/%m/%Y")
    with (Some [Dir Dd; Lit "/"%char; Dir Dm; Lit "/"%char; Dir DY]).
  cbv beta iota.
  rewrite DateParserFacts.match_field_any_sep
    by first [ lia | reflexivity | apply DateParserFacts.day_alternatives; lia ].
  rewrite Ascii.eqb_refl.
  rewrite DateParserFacts.match_field_any_sep
    by first [ lia | reflexivity | apply DateParserFacts.month_alternatives; lia ].
  rewrite Ascii.eqb_refl, DateParserTexts.last_year by lia.
  cbn [set_field init fY fm fd].
  assert (valid_ymd (year d) (day d) (month d) = true) as ->; [|reflexivity].
  apply DateParserMore.valid_ymd_iff.
  pose proof (DateParserMore.days_in_month_28 (year d) (day d)). lia.
Qed.

Lemma month_first_format d :
  valid_date d -> strptime (month_first d) "%m/%d/%Y" = Some d.
Proof.
  intros Hv. destruct (DateParserFacts.valid_bounds d Hv) as (Hy & Hm & Hd).
  unfold valid_date in Hv. unfold strptime, month_first.
  change (compile "%m/%d/%Y")
    with (Some [Dir Dm; Lit "/"%char; Dir Dd; Lit "/"%char; Dir DY]).
  cbv beta iota.
  rewrite DateParserFacts.match_field_any_sep
    by first [ lia | reflexivity | apply DateParserFacts.month_alternatives; lia ].
  rewrite Ascii.eqb_refl.
  rewrite DateParserFacts.match_field_any_sep
    by first [ lia | reflexivity | apply DateParserFacts.day_alternatives; lia ].
  rewrite Ascii.eqb_refl, DateParserTexts.last_year by lia.
  cbn [set_field init fY fm fd]. rewrite Hv. now destruct d.
Qed.

End MonthFirstTexts.

(** A date typed MM/DD/YYYY, the form the prompt of [add_new_expense]
    names, is read as typed when its day is 13 or more. *)
Theorem parse_date_input_month_first_from_13 (d : datetime) :
  valid_date d -> 13 <= day d ->
  parse_date_input (InStr (month_first d)) = Some (Datetime d).
Proof.
  intros Hv H13. destruct (MonthFirstTexts.not_blank_clean d Hv) as [Hb Hc].
  unfold parse_date_input. rewrite Hb, Hc.
  unfold date_formats. cbn [Strptime.first_some]. unfold try_format.
  rewrite (MonthFirstTexts.other_separator d "%d-%m-%Y" Hv) by (cbn; tauto).
  rewrite (MonthFirstTexts.other_separator d "%d.%m.%Y" Hv) by (cbn; tauto).
  rewrite (MonthFirstTexts.other_separator d "%m-%d-%Y" Hv) by (cbn; tauto).
  rewrite (MonthFirstTexts.day_first_high d Hv H13).
  rewrite (MonthFirstTexts.month_first_format d Hv).
  reflexivity.
Qed.

Lemma parse_date_input_month_first_from_13_witness :
  valid_date (mkdate 2024 3 15) /\ 13 <= day (mkdate 2024 3 15)
  /\ parse_date_input (InStr "03/15/2024") = Some (Datetime (mkdate 2024 3 15)).
Proof.
  split; [reflexivity|]. split; [cbn; lia|].
  apply (parse_date_input_month_first_from_13 (mkdate 2024 3 15));
    [reflexivity | cbn; lia].
Defined.

(** With a day of 12 or less, the same text is read day first: month
    and day change places. *)
Theorem parse_date_input_month_first_up_to_12 (d : datetime) :
  valid_date d -> day d <= 12 ->
  parse_date_input (InStr (month_first d))
  = Some (Datetime (mkdate (year d) (day d) (month d))).
Proof.
  intros Hv H12. destruct (MonthFirstTexts.not_blank_clean d Hv) as [Hb Hc].
  unfold parse_date_input. rewrite Hb, Hc.
  unfold date_formats. cbn [Strptime.first_some]. unfold try_format.
  rewrite (MonthFirstTexts.other_separator d "%d-%m-%Y" Hv) by (cbn; tauto).
  rewrite (MonthFirstTexts.day_first_low d Hv H12).
  reflexivity.
Qed.

Lemma parse_date_input_month_first_up_to_12_witness :
  valid_date (mkdate 2024 3 4) /\ day (mkdate 2024 3 4) <= 12
  /\ parse_date_input (InStr "03/04/2024") = Some (Datetime (mkdate 2024 4 3)).
Proof.
  split; [reflexivity|]. split; [cbn; lia|].
  apply (parse_date_input_month_first_up_to_12 (mkdate 2024 3 4));
    [reflexivity | cbn; lia].
Defined.

(** ** What the ledger keeps *)

Module LedgerMore.

Lemma positive_not_nonpositive a : SFltb fzero a = true -> SFleb a fzero = false.
Proof. destruct a as [[]|[]| |[] m e]; cbn; congruence. Qed.

Lemma normalize_all_rows m data :
  map Date (rows (normalize_all_categories m data)) = map Date (rows data)
  /\ map Amount (rows (normalize_all_categories m data)) = map Amount (rows data).
Proof.
  unfold normalize_all_categories. destruct (_ && _); [|split; reflexivity].
  cbn [rows]. rewrite !map_map. split; reflexivity.
Qed.

Lemma Forall_of_map {A B} (f : A -> B) (P : B -> Prop) l l' :
  map f l = map f l' -> Forall (fun x => P (f x)) l' -> Forall (fun x => P (f x)) l.
Proof.
  intros E H. apply List.Forall_map. rewrite E. now apply List.Forall_map.
Qed.

(** The step of [add_new_expense] that changes the tracker. *)
Lemma add_cases {L : Library} self i :
  fst (add_new_expense self i) = self
  \/ exists d a,
       parse_date_input (InStr (typed_date i)) = Some d
       /\ declined d i = false
       /\ py_float (typed_amount i) = Some a
       /\ SFleb a fzero = false
       /\ fst (add_new_expense self i)
          = mktracker
              (mkframe (concat_columns (columns (expense_data self))
                                       expense_columns)
                 (rows (expense_data self)
                  ++ [mkexpense (Some (date_of d))
                        (Some (canonical_name (category_name_mapping self)
                                 (PyStr.strip (typed_category i))))
                        a (Some (PyStr.strip (typed_description i)))])%list)
              (match category_name_mapping self
                     !! category_key (typed_category i) with
               | Some _ => category_name_mapping self
               | None =>
                   <[category_key (typed_category i) :=
                       canonical_name (category_name_mapping self)
                         (PyStr.strip (typed_category i))]>
                     (category_name_mapping self)
               end).
Proof.
  unfold add_new_expense, declined, category_key.
  destruct (parse_date_input (InStr (typed_date i))) as [d|]; [|now left].
  destruct (_ && _) eqn:Ed; [now left|].
  destruct (py_float (typed_amount i)) as [a|]; [|now left].
  destruct (SFleb a fzero) eqn:Ea; [now left|].
  right. exists d, a. rewrite PyStrFacts.strip_idem.
  repeat split; assumption.
Qed.

Lemma rows_canonical {L : Library} self :
  reachable self ->
  forall e c,
    In e (rows (expense_data self)) -> Category e = Some c ->
    category_name_mapping self !! category_key c = Some c.
Proof.
  induction 1 as [source|self i Hr IH].
  - unfold tracker_init. cbn [expense_data category_name_mapping].
    set (data := load_expense_data source).
    set (m := build_category_name_mapping data).
    assert (Hcols : string_in "Category" (columns data) = true)
      by (subst data; now destruct source).
    unfold normalize_all_categories. rewrite Hcols, andb_true_r.
    destruct (is_empty data) eqn:He; cbn [negb].
    + assert (rows data = []) as ->; [|intros e c []].
      unfold is_empty in He. destruct (columns data); [discriminate|].
      now destruct (rows data).
    + cbn [rows]. intros e c Hin Hc.
      apply in_map_iff in Hin as (e0 & <- & Hin). cbn [Category] in Hc.
      destruct (Category e0) as [s|] eqn:Es; [|discriminate].
      cbn [normalize_category_name] in Hc. injection Hc as <-.
      pose proof (build_covers data e0 s Hcols Hin Es) as Hk. fold m in Hk.
      unfold canonical_name. fold (category_key s).
      destruct (m !! category_key s) as [v|] eqn:Ev; [|contradiction].
      cbn [default from_option id].
      destruct (CategoryFacts.build_table_ok data _ _ Ev) as [Hkv _].
      now rewrite Hkv.
  - pose proof (CategoryFacts.reachable_table_ok self Hr) as Hok.
    destruct (add_cases self i) as [->|(d & a & _ & _ & _ & _ & ->)];
      [exact IH|].
    cbn [expense_data category_name_mapping rows].
    set (m := category_name_mapping self) in *.
    set (k := category_key (typed_category i)).
    assert (Hc : canonical_name m (PyStr.strip (typed_category i))
                 = match m !! k with
                   | Some v => v
                   | None => PyStr.strip (typed_category i)
                   end).
    { unfold canonical_name. rewrite PyStrFacts.strip_idem.
      fold (category_key (typed_category i)). fold k.
      now destruct (m !! k). }
    intros e c Hin Hcat. apply in_app_or in Hin as [Hin|[<-|[]]].
    + specialize (IH e c Hin Hcat).
      destruct (m !! k) eqn:Ek; [exact IH|].
      rewrite lookup_insert_ne; [exact IH|]. intros E. congruence.
    + cbn [Category] in Hcat. injection Hcat as <-. rewrite Hc.
      destruct (m !! k) as [v|] eqn:Ek.
      * destruct (Hok _ _ Ek) as [Hkv _]. now rewrite Hkv.
      * rewrite CategoryFacts.category_key_strip. fold k.
        apply lookup_insert_eq.
Qed.

End LedgerMore.

(** On a tracker the program can reach, the category of every record
    is the entry of the table under its key; so two records whose
    categories differ only in case or in spaces around them carry the
    same category. *)
Theorem reachable_categories_are_canonical {L : Library} (self : tracker) :
  reachable self ->
  (forall e c,
      In e (rows (expense_data self)) -> Category e = Some c ->
      category_name_mapping self !! category_key c = Some c)
  /\ (forall e1 e2 c1 c2,
        In e1 (rows (expense_data self)) -> In e2 (rows (expense_data self)) ->
        Category e1 = Some c1 -> Category e2 = Some c2 ->
        category_key c1 = category_key c2 -> c1 = c2).
Proof.
  intros Hr. pose proof (LedgerMore.rows_canonical self Hr) as H.
  split; [exact H|].
  intros e1 e2 c1 c2 H1 H2 E1 E2 Hk.
  pose proof (H e1 c1 H1 E1) as L1. pose proof (H e2 c2 H2 E2) as L2.
  rewrite Hk in L1. congruence.
Qed.

Lemma reachable_categories_are_canonical_witness :
  reachable (L := Reference.library) example_tracker
  /\ map Category (rows (expense_data example_tracker))
     = [Some "Groceries"; Some "Groceries"; Some "Groceries"]
  /\ category_name_mapping example_tracker !! category_key "Groceries"
     = Some "Groceries".
Proof.
  split; [apply reachable_init|]. split; [vm_compute; reflexivity|].
  destruct (reachable_categories_are_canonical (L := Reference.library)
              example_tracker (reachable_init (Some example_file))) as [H _].
  apply (H (mkexpense (Some (mkdate 2024 3 15)) (Some "Groceries")
              (default S754_nan (Reference.decimal "45.50"))
              (Some "Weekly shop"))).
  - vm_compute. now left.
  - reflexivity.
Defined.

(** On a tracker the program can reach, every record has a date, and
    no amount is zero or negative. *)
Theorem reachable_records_dated_not_nonpositive {L : Library} (self : tracker) :
  reachable self ->
  Forall (fun e => Date e <> None /\ SFleb (Amount e) fzero = false)
         (rows (expense_data self)).
Proof.
  induction 1 as [source|self i Hr IH].
  - unfold tracker_init. cbn [expense_data].
    set (data := load_expense_data source).
    set (m := build_category_name_mapping data).
    destruct (LedgerMore.normalize_all_rows m data) as [Hd Ha].
    apply List.Forall_and.
    + apply (LedgerMore.Forall_of_map Date (fun x => x <> None) _ _ Hd).
      subst data. destruct source as [raw|]; [|constructor].
      cbn [load_expense_data rows]. apply List.Forall_forall. intros e He.
      apply filter_In in He as [He _]. apply filter_In in He as [_ He].
      unfold has_date_and_amount in He. now destruct (Date e).
    + apply (LedgerMore.Forall_of_map Amount
               (fun x => SFleb x fzero = false) _ _ Ha).
      subst data. destruct source as [raw|]; [|constructor].
      cbn [load_expense_data rows]. apply List.Forall_forall. intros e He.
      apply filter_In in He as [_ He].
      now apply LedgerMore.positive_not_nonpositive.
  - destruct (LedgerMore.add_cases self i) as [->|(d & a & _ & _ & _ & Ha & ->)];
      [exact IH|].
    cbn [expense_data rows]. apply List.Forall_app. split; [exact IH|].
    constructor; [|constructor]. cbn [Date Amount]. split; [discriminate|exact Ha].
Qed.

Lemma reachable_records_dated_not_nonpositive_witness :
  reachable (L := Reference.library) example_tracker
  /\ Forall (fun e => Date e <> None /\ SFleb (Amount e) fzero = false)
       (rows (expense_data example_tracker)).
Proof.
  split; [apply reachable_init|].
  exact (reachable_records_dated_not_nonpositive (L := Reference.library)
           example_tracker (reachable_init (Some example_file))).
Defined.

(** [add_new_expense] never changes an entry of the table: what a key
    stands for, it stands for afterwards. *)
Theorem add_new_expense_keeps_entries {L : Library}
    (self : tracker) (i : add_inputs) (k v : string) :
  category_name_mapping self !! k = Some v ->
  category_name_mapping (fst (add_new_expense self i)) !! k = Some v.
Proof.
  intros Hk.
  destruct (LedgerMore.add_cases self i) as [->|(d & a & _ & _ & _ & _ & ->)];
    [exact Hk|].
  cbn [category_name_mapping].
  destruct (category_name_mapping self !! category_key (typed_category i))
    eqn:E; [exact Hk|].
  rewrite lookup_insert_ne; [exact Hk|]. intros <-. congruence.
Qed.

Lemma add_new_expense_keeps_entries_witness :
  category_name_mapping example_tracker !! "groceries" = Some "Groceries"
  /\ category_name_mapping
       (fst (add_new_expense (L := Reference.library)
               example_tracker example_inputs)) !! "groceries"
     = Some "Groceries".
Proof.
  split; [vm_compute; reflexivity|].
  apply (add_new_expense_keeps_entries (L := Reference.library)).
  vm_compute. reflexivity.
Defined.

(** An amount that [float] reads as NaN, as Python's does "nan", is not
    turned away: NaN is not [<= 0], and the record is appended with an
    amount that is not greater than 0. *)
Theorem add_new_expense_takes_nan {L : Library}
    (self : tracker) (i : add_inputs) (d : date_value) :
  parse_date_input (InStr (typed_date i)) = Some d ->
  declined d i = false ->
  py_float (typed_amount i) = Some S754_nan ->
  exists r,
    rows (expense_data (fst (add_new_expense self i)))
    = (rows (expense_data self) ++ [r])%list
    /\ Amount r = S754_nan
    /\ positive_amount r = false.
Proof.
  intros Hd Hdec Ha. unfold add_new_expense. unfold declined in Hdec.
  rewrite Hd, Hdec, Ha. cbn [SFleb SFcompare fst expense_data rows].
  eexists. split; [reflexivity|]. split; reflexivity.
Qed.

Lemma add_new_expense_takes_nan_witness :
  py_float (Library := ReferenceNaN.library) "nan" = Some S754_nan
  /\ exists r,
       rows (expense_data
               (fst (add_new_expense (L := ReferenceNaN.library) example_tracker
                       (mkadd "05/04/2024" "Travel" "nan" "" "" "n"
                          (mkdate 2026 11 4) true))))
       = (rows (expense_data example_tracker) ++ [r])%list
       /\ Amount r = S754_nan
       /\ positive_amount r = false.
Proof.
  split; [reflexivity|].
  apply (add_new_expense_takes_nan (L := ReferenceNaN.library) example_tracker
           (mkadd "05/04/2024" "Travel" "nan" "" "" "n" (mkdate 2026 11 4) true)
           (Datetime (mkdate 2024 4 5))); reflexivity.
Defined.

Module SaveFacts.

Lemma from_file_valid_dates {L : Library} self :
  reachable_from_file self ->
  Forall (fun e => forall d, Date e = Some d -> valid_date d)
         (rows (expense_data self)).
Proof.
  induction 1 as [source Htext|self i Hr IH].
  - unfold tracker_init. cbn [expense_data].
    set (data := load_expense_data source).
    destruct (LedgerMore.normalize_all_rows
                (build_category_name_mapping data) data) as [Hd _].
    apply (LedgerMore.Forall_of_map Date
             (fun x => forall d, x = Some d -> valid_date d) _ _ Hd).
    subst data. destruct source as [raw|]; [|constructor].
    specialize (Htext raw eq_refl). cbn [load_expense_data rows].
    apply List.Forall_forall. intros e He.
    apply filter_In in He as [He _]. apply filter_In in He as [He _].
    apply in_map_iff in He as (r & <- & Hr).
    rewrite List.Forall_forall in Htext. specialize (Htext r Hr).
    unfold convert_row. cbn [Date].
    destruct (raw_Date r) as [| |s|v];
      [intros d Hd'; discriminate Hd' | intros d Hd'; discriminate Hd'
      | | destruct Htext].
    intros d Hd'.
    destruct (parse_date_input (InStr s)) as [v|] eqn:Ep; [|discriminate].
    destruct (parse_text_calendar s v Ep) as (d' & -> & Hv).
    cbn [option_map date_of] in Hd'. now injection Hd' as <-.
  - destruct (LedgerMore.add_cases self i) as [->|(d & a & Hp & _ & _ & _ & ->)];
      [exact IH|].
    cbn [expense_data rows]. apply List.Forall_app. split; [exact IH|].
    constructor; [|constructor]. cbn [Date]. intros d' [= <-].
    destruct (parse_text_calendar _ _ Hp) as (d' & -> & Hv). exact Hv.
Qed.

End SaveFacts.

(** A ledger read from a file and extended by additions is saved with
    dates that read back as they were from the year 1000 on: parsing
    the [Date] column that [save_expense_data] writes gives the date of
    every record of the year 1000 or later, and no date for a record of
    an earlier year, whose year is written on fewer than four digits. *)
Theorem saved_dates_read_back {L : Library} (self : tracker) :
  reachable_from_file self ->
  map (fun cell =>
         match cell with
         | Some text => option_map date_of (parse_date_input (InStr text))
         | None => None
         end) (saved_dates self)
  = map (fun e =>
           match Date e with
           | Some d => if year d <? 1000 then None else Some d
           | None => None
           end) (rows (expense_data self)).
Proof.
  intros Hr. apply saved_dates_parse_back.
  now apply SaveFacts.from_file_valid_dates.
Qed.

Lemma saved_dates_read_back_witness :
  reachable_from_file (L := Reference.library) old_tracker
  /\ saved_dates old_tracker = [Some "01-01-999"; Some "15-03-2024"]
  /\ map (fun cell =>
            match cell with
            | Some text => option_map date_of (parse_date_input (InStr text))
            | None => None
            end) (saved_dates old_tracker)
     = [None; Some (mkdate 2024 3 15)].
Proof.
  assert (H : reachable_from_file (L := Reference.library) old_tracker).
  { apply from_file_init. intros raw [= <-]. repeat constructor. }
  split; [exact H|]. split; [vm_compute; reflexivity|].
  exact (saved_dates_read_back (L := Reference.library) old_tracker H).
Defined.

(** ** More on filtering *)

Module FilterMore.

Lemma date_leb_iff a b :
  date_leb a b = true <->
  year a < year b
  \/ (year a = year b
      /\ (month a < month b \/ (month a = month b /\ day a <= day b))).
Proof.
  unfold date_leb.
  rewrite !orb_true_iff, !andb_true_iff, !orb_true_iff, !andb_true_iff,
    !Z.ltb_lt, !Z.eqb_eq, Z.leb_le.
  tauto.
Qed.

Lemma date_ltb_iff a b :
  date_ltb a b = true <->
  year a < year b
  \/ (year a = year b
      /\ (month a < month b \/ (month a = month b /\ day a < day b))).
Proof.
  unfold date_ltb, date_eqb.
  rewrite andb_true_iff, negb_true_iff, date_leb_iff.
  rewrite !andb_false_iff, !Z.eqb_neq. lia.
Qed.

Lemma nothing_between s e x :
  date_ltb e s = true -> on_or_after s x && on_or_before e x = false.
Proof.
  intros H. unfold on_or_after, on_or_before.
  destruct (Date x) as [d|]; [|reflexivity].
  destruct (date_leb s d) eqn:E1; [|reflexivity].
  destruct (date_leb d e) eqn:E2; [|reflexivity].
  exfalso. apply date_ltb_iff in H. apply date_leb_iff in E1, E2. lia.
Qed.

Lemma filter_none {A} (p : A -> bool) l :
  (forall x, p x = false) -> List.filter p l = [].
Proof.
  intros H. induction l as [|x l IH]; [reflexivity|].
  cbn [List.filter]. now rewrite H.
Qed.

End FilterMore.

(** A range whose end is before its start is no error: the filter
    prints nothing and returns no record, under the columns of the
    ledger. *)
Theorem filter_expenses_inverted_range (self : tracker)
    (ledger_dtypes : dtypes) (start_date end_date : date_input)
    (s e : date_value) :
  truthy start_date = true -> truthy end_date = true ->
  parse_date_input start_date = Some s ->
  parse_date_input end_date = Some e ->
  date_ltb (date_of e) (date_of s) = true ->
  filter_expenses self ledger_dtypes start_date end_date InNone
  = (mkframe (columns (expense_data self)) [], [], self).
Proof.
  intros Ts Te Ps Pe Hlt. unfold filter_expenses. cbn [truthy].
  rewrite Ts, Te, Ps, Pe. cbn [orb andb isSome negb]. unfold select.
  cbn [columns rows]. rewrite LedgerFacts.filter_filter.
  rewrite FilterMore.filter_none; [reflexivity|].
  intros x. now apply FilterMore.nothing_between.
Qed.

Lemma filter_expenses_inverted_range_witness :
  date_ltb (mkdate 2024 3 1) (mkdate 2024 3 31) = true
  /\ filter_expenses march_tracker (mkdtypes true true)
       (InStr "31-03-2024") (InStr "01-03-2024") InNone
     = (mkframe expense_columns [], [], march_tracker).
Proof.
  split; [reflexivity|].
  apply (filter_expenses_inverted_range march_tracker (mkdtypes true true)
           (InStr "31-03-2024") (InStr "01-03-2024")
           (Datetime (mkdate 2024 3 31)) (Datetime (mkdate 2024 3 1)));
    reflexivity.
Defined.

(** In the filter menu, the choice "Month" never shows the records of a
    month: for every month typed, what follows the heading is lines of
    text that end with "No matching records found".  When nothing is
    typed and the ledger is not empty, the whole ledger is found: it is
    shown when its dates are in a datetime64 column, and the call
    raises when they are in a column of dtype object. *)
Theorem show_filter_menu_month (self : tracker) (ledger_dtypes : dtypes)
    (i : filter_menu_inputs) :
  PyStr.strip (typed_filter_choice i) = "2" ->
  (PyStr.nonempty (typed_month i) = true ->
   exists printed,
     show_filter_menu self ledger_dtypes i
     = (filter_menu_heading ++ map Said printed
        ++ [Said (Text "No matching records found")])%list)
  /\ (typed_month i = "" -> is_empty (expense_data self) = false ->
      show_filter_menu self ledger_dtypes i
      = (filter_menu_heading
         ++ [if Date_is_datetime64 ledger_dtypes
             then Showed (rows (expense_data self))
             else MenuRaises])%list).
Proof.
  intros Hc. unfold show_filter_menu. rewrite Hc.
  change (String.eqb "2" "1") with false.
  change (String.eqb "2" "2") with true. cbv beta iota.
  split.
  - intros Hm.
    pose proof (filter_expenses_month_text self ledger_dtypes InNone InNone
                  (typed_month i) Hm) as Hf.
    destruct (filter_expenses self ledger_dtypes InNone InNone
                (InStr (typed_month i)))
      as [[f printed] self'].
    cbn [fst] in Hf. subst f. exists printed. reflexivity.
  - intros -> Hne. unfold filter_expenses. cbn [truthy PyStr.nonempty orb].
    rewrite Hne. now destruct (Date_is_datetime64 ledger_dtypes).
Qed.

Lemma show_filter_menu_month_witness :
  PyStr.strip (typed_filter_choice (mkmenu " 2" "" "" "2024-03")) = "2"
  /\ show_filter_menu march_tracker (mkdtypes true true)
       (mkmenu " 2" "" "" "2024-03")
     = (filter_menu_heading ++ [Said (Text "No matching records found")])%list
  /\ show_filter_menu march_tracker (mkdtypes true true)
       (mkmenu " 2" "" "" "")
     = (filter_menu_heading ++ [Showed (rows (expense_data march_tracker))])%list
  /\ show_filter_menu march_tracker (mkdtypes false false)
       (mkmenu " 2" "" "" "")
     = (filter_menu_heading ++ [MenuRaises])%list.
Proof.
  split; [reflexivity|].
  destruct (show_filter_menu_month march_tracker (mkdtypes true true)
              (mkmenu " 2" "" "" "2024-03") eq_refl) as [H _].
  destruct (H eq_refl) as [printed Hp].
  split; [reflexivity|].
  split.
  - exact (proj2 (show_filter_menu_month march_tracker (mkdtypes true true)
                    (mkmenu " 2" "" "" "") eq_refl) eq_refl eq_refl).
  - exact (proj2 (show_filter_menu_month march_tracker (mkdtypes false false)
                    (mkmenu " 2" "" "" "") eq_refl) eq_refl eq_refl).
Defined.

(** In the filter menu, a start date that is typed and does not parse
    gives two lines after the heading: the invalid start date, then "No
    matching records found". *)
Theorem show_filter_menu_invalid_start (self : tracker)
    (ledger_dtypes : dtypes) (i : filter_menu_inputs) :
  PyStr.strip (typed_filter_choice i) = "1" ->
  PyStr.nonempty (typed_start i) = true ->
  parse_date_input (InStr (typed_start i)) = None ->
  show_filter_menu self ledger_dtypes i
  = (filter_menu_heading
     ++ [Said (Text ("Invalid start date: " ++ typed_start i)%string);
         Said (Text "No matching records found")])%list.
Proof.
  intros Hc Hs Hp. unfold show_filter_menu. rewrite Hc.
  change (String.eqb "1" "1") with true. cbv beta iota.
  unfold filter_expenses. cbn [truthy]. rewrite Hs, Hp. reflexivity.
Qed.

Lemma show_filter_menu_invalid_start_witness :
  parse_date_input (InStr "31-02-2024") = None
  /\ show_filter_menu march_tracker (mkdtypes true true)
       (mkmenu "1" "31-02-2024" "" "")
     = (filter_menu_heading
        ++ [Said (Text "Invalid start date: 31-02-2024");
            Said (Text "No matching records found")])%list.
Proof.
  split; [reflexivity|].
  apply (show_filter_menu_invalid_start march_tracker (mkdtypes true true)
           (mkmenu "1" "31-02-2024" "" "")); reflexivity.
Defined.

(** ** More on the category analysis *)

Module AnalysisMore.

Lemma counted_sum report :
  counted report = list_sum (map transaction_count report).
Proof.
  unfold counted, list_sum. induction report as [|r l IH]; [reflexivity|].
  cbn [fold_right map]. now rewrite IH.
Qed.

Lemma counted_perm l l' : Permutation l l' -> counted l = counted l'.
Proof.
  unfold counted.
  induction 1 as [|x l l' _ IH|x y l|l l' l'' _ IH1 _ IH2];
    cbn [fold_right] in *; lia.
Qed.

Lemma size_insert k a g :
  list_sum (map (fun x => length (snd x)) (group_insert k a g))
  = S (list_sum (map (fun x => length (snd x)) g)).
Proof.
  induction g as [|[k0 l0] g IH]; [reflexivity|].
  unfold list_sum in *.
  cbn [group_insert]. destruct (String.compare k k0); cbn [map fold_right snd].
  - rewrite length_app. cbn. lia.
  - cbn. lia.
  - rewrite IH. lia.
Qed.

Lemma size_groupby data :
  list_sum (map (fun x => length (snd x)) (groupby_Category data))
  = length (categories data).
Proof.
  unfold groupby_Category, categories.
  induction data as [|e data IH] using rev_ind; [reflexivity|].
  rewrite fold_left_app, flat_map_app, length_app. cbn [fold_left flat_map].
  unfold group_row at 1. destruct (Category e).
  - rewrite size_insert, IH. cbn. lia.
  - rewrite IH. cbn. lia.
Qed.

End AnalysisMore.

(** On a ledger that is not empty and whose amounts are in a numeric
    column, the transaction counts of the report add up to the number
    of records that have a category: each such record is counted in one
    row, and a record without a category in none. *)
Theorem analyze_categories_counts_every_record {L : Library} (self : tracker)
    (ledger_dtypes : dtypes) :
  sorts_descending L ->
  is_empty (expense_data self) = false ->
  Amount_is_numeric ledger_dtypes = true ->
  exists report,
    analyze_categories self ledger_dtypes = Report report
    /\ counted report = length (categories (rows (expense_data self))).
Proof.
  intros Hsort Hne Hnum. exists (category_report self).
  split; [unfold analyze_categories; now rewrite Hne, Hnum|].
  unfold category_report.
  match goal with |- counted (sort_values ?g) = _ =>
    rewrite <- (AnalysisMore.counted_perm _ _ (proj1 (Hsort g)))
  end.
  rewrite AnalysisMore.counted_sum, map_map. cbn [transaction_count].
  apply AnalysisMore.size_groupby.
Qed.

(** The four rows of the file are counted in the three rows of the
    report. *)
Lemma analyze_categories_counts_every_record_witness :
  sorts_descending Reference.library
  /\ is_empty (expense_data shop_tracker) = false
  /\ Amount_is_numeric (load_dtypes (Some shop_file)) = true
  /\ exists report,
       analyze_categories (L := Reference.library) shop_tracker
         (load_dtypes (Some shop_file)) = Report report
       /\ length report = 3%nat
       /\ counted report = 4%nat.
Proof.
  split; [exact AnalysisFacts.reference_sorts_descending|].
  split; [reflexivity|]. split; [reflexivity|].
  destruct (analyze_categories_counts_every_record (L := Reference.library)
              shop_tracker (load_dtypes (Some shop_file))
              AnalysisFacts.reference_sorts_descending eq_refl eq_refl)
    as (report & Ha & Hc).
  exists report. split; [exact Ha|]. split; [|exact Hc].
  vm_compute in Ha. now injection Ha as <-.
Defined.

(** ** The spending summary *)

Module SummaryFacts.

Ltac float_cases :=
  repeat match goal with
         | H : context [(?a ?= ?b)%Z] |- _ => destruct (Z.compare_spec a b)
         | |- context [(?a ?= ?b)%Z] => destruct (Z.compare_spec a b)
         end;
  repeat match goal with
         | H : context [Pos.compare_cont Eq ?a ?b] |- _ =>
             change (Pos.compare_cont Eq a b) with (Pos.compare a b) in H
         | |- context [Pos.compare_cont Eq ?a ?b] =>
             change (Pos.compare_cont Eq a b) with (Pos.compare a b)
         end;
  repeat match goal with
         | H : context [(?a ?= ?b)%positive] |- _ => destruct (Pos.compare_spec a b)
         | |- context [(?a ?= ?b)%positive] => destruct (Pos.compare_spec a b)
         end;
  cbn in *; subst; try discriminate; try reflexivity; try lia.

Lemma SFltb_trans x y z :
  SFltb x y = true -> SFltb y z = true -> SFltb x z = true.
Proof.
  unfold SFltb, SFcompare.
  destruct x as [[]|[]| |[] m1 e1], y as [[]|[]| |[] m2 e2],
           z as [[]|[]| |[] m3 e3];
    try discriminate; try reflexivity; intros H1 H2; float_cases.
Qed.

(** What is not below a number is below what that number is below. *)
Lemma SFltb_not_then x y b :
  isna_float b = false ->
  SFltb y b = false -> SFltb y x = true -> SFltb b x = true.
Proof.
  unfold SFltb, SFcompare, isna_float.
  destruct x as [[]|[]| |[] m1 e1], y as [[]|[]| |[] m2 e2],
           b as [[]|[]| |[] m3 e3];
    try discriminate; try reflexivity; intros _ H1 H2; float_cases.
Qed.

Lemma SFltb_then_not x y b :
  isna_float b = false ->
  SFltb b y = false -> SFltb x y = true -> SFltb x b = true.
Proof.
  unfold SFltb, SFcompare, isna_float.
  destruct x as [[]|[]| |[] m1 e1], y as [[]|[]| |[] m2 e2],
           b as [[]|[]| |[] m3 e3];
    try discriminate; try reflexivity; intros _ H1 H2; float_cases.
Qed.

Section Scan.

Variable beats : spec_float -> spec_float -> bool.

Hypothesis beats_trans : forall x y z,
  beats x y = true -> beats y z = true -> beats x z = true.

Hypothesis beats_unbeaten : forall x y b,
  isna_float b = false ->
  beats b y = false -> beats x y = true -> beats x b = true.

(** The pass keeps a record that beats those before it and that none
    after it beats. *)
Lemma first_best_scan (l : list expense) : forall best A B,
  Forall (fun x => isna_float (Amount x) = false) (B ++ l) ->
  Forall (fun a => beats (Amount best) (Amount a) = true) A ->
  Forall (fun b => beats (Amount b) (Amount best) = false) B ->
  first_unbeaten beats (A ++ best :: B ++ l) (first_best beats Amount best l).
Proof.
  induction l as [|x r IH]; intros best A B Hnan HA HB.
  - exists A, B. rewrite app_nil_r. cbn [first_best]. auto.
  - cbn [first_best].
    apply Forall_app in Hnan as [HnB Hnl].
    apply Forall_cons in Hnl as [Hx Hr].
    destruct (beats (Amount x) (Amount best)) eqn:E.
    + replace (A ++ best :: B ++ x :: r)%list
        with ((A ++ best :: B) ++ x :: [] ++ r)%list
        by (rewrite <- app_assoc; reflexivity).
      apply IH.
      * exact Hr.
      * apply Forall_app. split; [|constructor].
        -- eapply Forall_impl; [exact HA|]. intros a Ha.
           exact (beats_trans _ _ _ E Ha).
        -- exact E.
        -- clear HA IH. induction B as [|b B IHB]; [constructor|].
           apply Forall_cons in HB as [Hb HB].
           apply Forall_cons in HnB as [Hnb HnB].
           constructor; [|now apply IHB].
           exact (beats_unbeaten _ _ _ Hnb Hb E).
      * constructor.
    + replace (A ++ best :: B ++ x :: r)%list
        with (A ++ best :: (B ++ [x]) ++ r)%list
        by (rewrite <- app_assoc; reflexivity).
      apply IH.
      * rewrite <- app_assoc. apply Forall_app. split; [exact HnB|].
        constructor; assumption.
      * exact HA.
      * apply Forall_app. split; [exact HB|]. constructor; [exact E|constructor].
Qed.

End Scan.

Lemma first_best_ext beats (key key' : expense -> spec_float) l : forall best,
  key best = key' best ->
  Forall (fun x => key x = key' x) l ->
  first_best beats key best l = first_best beats key' best l.
Proof.
  induction l as [|x r IH]; intros best Hb Hl; [reflexivity|].
  apply Forall_cons in Hl as [Hx Hr]. cbn [first_best].
  rewrite Hx, Hb. apply IH; [|exact Hr].
  destruct (beats (key' x) (key' best)); assumption.
Qed.

Lemma some_amount x r :
  isna_float (Amount x) = false ->
  forallb (fun e => isna_float (Amount e)) (x :: r) = false.
Proof. intros H. cbn [forallb]. now rewrite H. Qed.

Lemma fill_amounts v l :
  Forall (fun x => isna_float (Amount x) = false) l ->
  Forall (fun x => fill v (Amount x) = Amount x) l.
Proof.
  intros H. eapply Forall_impl; [exact H|].
  intros x Hx. unfold fill. now rewrite Hx.
Qed.

Lemma idxmax_first l :
  l <> [] -> Forall (fun x => isna_float (Amount x) = false) l ->
  exists e, idxmax l = Some e /\ first_unbeaten larger l e.
Proof.
  destruct l as [|x r]; [congruence|]. intros _ H.
  pose proof H as H'. apply Forall_cons in H' as [Hx Hr].
  unfold idxmax. rewrite (some_amount x r Hx).
  eexists. split; [reflexivity|].
  pose proof (fill_amounts minus_infinity _ H) as Hf.
  apply Forall_cons in Hf as [Hfx Hfr].
  rewrite (first_best_ext _ _ Amount r x Hfx Hfr).
  apply (first_best_scan larger) with (A := []) (B := []);
    [| |exact Hr|constructor|constructor]; unfold larger.
  - intros a b c H1 H2. exact (SFltb_trans _ _ _ H2 H1).
  - intros a b c. apply SFltb_not_then.
Qed.

Lemma idxmin_first l :
  l <> [] -> Forall (fun x => isna_float (Amount x) = false) l ->
  exists e, idxmin l = Some e /\ first_unbeaten smaller l e.
Proof.
  destruct l as [|x r]; [congruence|]. intros _ H.
  pose proof H as H'. apply Forall_cons in H' as [Hx Hr].
  unfold idxmin. rewrite (some_amount x r Hx).
  eexists. split; [reflexivity|].
  pose proof (fill_amounts plus_infinity _ H) as Hf.
  apply Forall_cons in Hf as [Hfx Hfr].
  rewrite (first_best_ext _ _ Amount r x Hfx Hfr).
  apply (first_best_scan smaller) with (A := []) (B := []);
    [| |exact Hr|constructor|constructor]; unfold smaller.
  - intros a b c. apply SFltb_trans.
  - intros a b c. apply SFltb_then_not.
Qed.

Lemma first_unbeaten_In beats l e : first_unbeaten beats l e -> In e l.
Proof.
  intros (A & B & -> & _). apply in_or_app. right. now left.
Qed.

End SummaryFacts.

(** On a ledger that is not empty, whose amounts are in a numeric
    column, in which no amount is missing and every record has a date,
    the summary is shown: its total is the sum of the amounts, its most
    expensive item is the first record with the largest amount, and its
    least expensive item the first record with the smallest amount. *)
Theorem display_spending_summary_first_extremes {L : Library} (self : tracker)
    (ledger_dtypes : dtypes) :
  is_empty (expense_data self) = false ->
  Amount_is_numeric ledger_dtypes = true ->
  Forall (fun e => isna_float (Amount e) = false /\ isSome (Date e) = true)
    (rows (expense_data self)) ->
  exists s,
    display_spending_summary self ledger_dtypes = SummaryShown s
    /\ total_spent s = series_sum (map Amount (rows (expense_data self)))
    /\ first_unbeaten larger (rows (expense_data self)) (highest_expense s)
    /\ first_unbeaten smaller (rows (expense_data self)) (lowest_expense s).
Proof.
  intros Hne Hnum Hall. unfold display_spending_summary. rewrite Hne, Hnum.
  cbn [negb].
  assert (Hrows : rows (expense_data self) <> []).
  { unfold is_empty in Hne. intros E. rewrite E in Hne.
    destruct (columns (expense_data self)); discriminate. }
  assert (Hnan : Forall (fun x => isna_float (Amount x) = false)
                   (rows (expense_data self))).
  { eapply Forall_impl; [exact Hall|]. now intros x [H _]. }
  destruct (SummaryFacts.idxmax_first _ Hrows Hnan) as (hi & -> & Hhi).
  destruct (SummaryFacts.idxmin_first _ Hrows Hnan) as (lo & -> & Hlo).
  assert (Hd : forall e, In e (rows (expense_data self)) -> isSome (Date e) = true).
  { intros e He. rewrite Forall_forall in Hall. apply Hall, list_elem_of_In, He. }
  pose proof (Hd _ (SummaryFacts.first_unbeaten_In _ _ _ Hhi)) as Dhi.
  pose proof (Hd _ (SummaryFacts.first_unbeaten_In _ _ _ Hlo)) as Dlo.
  destruct (Date hi); [|discriminate]. destruct (Date lo); [|discriminate].
  eexists. split; [reflexivity|]. cbn [total_spent highest_expense lowest_expense].
  auto.
Qed.

Lemma display_spending_summary_first_extremes_witness :
  is_empty (expense_data march_tracker) = false
  /\ Forall (fun e => isna_float (Amount e) = false /\ isSome (Date e) = true)
       (rows (expense_data march_tracker))
  /\ exists s,
       display_spending_summary (L := Reference.library) march_tracker
         (mkdtypes true true)
       = SummaryShown s
       /\ total_spent s
          = series_sum (Library := Reference.library)
              (map Amount (rows (expense_data march_tracker)))
       /\ first_unbeaten larger (rows (expense_data march_tracker))
            (highest_expense s)
       /\ first_unbeaten smaller (rows (expense_data march_tracker))
            (lowest_expense s).
Proof.
  assert (H : Forall (fun e => isna_float (Amount e) = false
                               /\ isSome (Date e) = true)
                (rows (expense_data march_tracker))).
  { repeat constructor. }
  split; [reflexivity|]. split; [exact H|].
  exact (display_spending_summary_first_extremes (L := Reference.library)
           march_tracker (mkdtypes true true) eq_refl eq_refl H).
Defined.

(** When every amount of a ledger that is not empty is missing, the
    summary raises, whatever the dtype of the amounts: there is no
    largest amount to look up. *)
Theorem display_spending_summary_raises_without_amounts {L : Library}
    (self : tracker) (ledger_dtypes : dtypes) :
  is_empty (expense_data self) = false ->
  Forall (fun e => isna_float (Amount e) = true) (rows (expense_data self)) ->
  display_spending_summary self ledger_dtypes = SummaryRaises.
Proof.
  intros Hne Hall. unfold display_spending_summary, idxmax. rewrite Hne.
  destruct (Amount_is_numeric ledger_dtypes); [|reflexivity]. cbn [negb].
  replace (forallb (fun e => isna_float (Amount e)) (rows (expense_data self)))
    with true; [reflexivity|].
  symmetry. apply forallb_forall. intros e He.
  rewrite Forall_forall in Hall. apply Hall, list_elem_of_In, He.
Qed.

Lemma display_spending_summary_raises_without_amounts_witness :
  let self :=
    mktracker
      (mkframe expense_columns
         [mkexpense (Some (mkdate 2024 3 1)) (Some "Food") S754_nan (Some "")])
      {["food" := "Food"]} in
  is_empty (expense_data self) = false
  /\ Forall (fun e => isna_float (Amount e) = true) (rows (expense_data self))
  /\ display_spending_summary (L := Reference.library) self
       (mkdtypes true true) = SummaryRaises.
Proof.
  intros self.
  assert (H : Forall (fun e => isna_float (Amount e) = true)
                (rows (expense_data self))) by (repeat constructor).
  split; [reflexivity|]. split; [exact H|].
  exact (display_spending_summary_raises_without_amounts
           (L := Reference.library) self (mkdtypes true true) eq_refl H).
Defined.

(** ** A tracker begun without a file *)

Module DtypeFacts.

(** [pd.concat] with a new record leaves the two dtype kinds as they
    are. *)
Lemma concat_new_record ledger_dtypes :
  concat_dtypes ledger_dtypes new_record_dtypes = ledger_dtypes.
Proof.
  destruct ledger_dtypes as [[] []]; reflexivity.
Qed.

(** The dtypes of a ledger are decided when the tracker starts. *)
Lemma reached_dtypes {L : Library} source self ledger_dtypes :
  reached_from source self ledger_dtypes ->
  ledger_dtypes = load_dtypes source.
Proof.
  induction 1 as [|self dt i _ IH]; [reflexivity|].
  unfold add_dtypes. rewrite concat_new_record.
  now destruct (appends self i).
Qed.

Lemma not_shown_in_lines printed records :
  ~ In (Showed records) (map Said printed).
Proof.
  intros H. apply in_map_iff in H as (l & E & _). discriminate.
Qed.

(** Every record that [add_new_expense] appends has a category. *)
Lemma without_file_categories {L : Library} self ledger_dtypes :
  reached_from None self ledger_dtypes ->
  Forall (fun e => Category e <> None) (rows (expense_data self)).
Proof.
  induction 1 as [|self dt i _ IH]; [constructor|].
  destruct (LedgerMore.add_cases self i) as [->|(d & a & _ & _ & _ & _ & ->)];
    [exact IH|].
  cbn [expense_data rows]. apply List.Forall_app. split; [exact IH|].
  constructor; [discriminate|constructor].
Qed.

(** A record with a category makes a group. *)
Lemma group_of_record data e c :
  In e data -> Category e = Some c -> groupby_Category data <> [].
Proof.
  intros Hin Hc Hg.
  destruct (AnalysisFacts.groupby_spec data) as [_ Ha]. specialize (Ha c).
  rewrite Hg in Ha. cbn [assoc] in Ha.
  destruct (amounts_of c data) eqn:E; [|discriminate].
  apply (proj2 (AnalysisFacts.amounts_of_nonempty c data)); [|exact E].
  now exists e.
Qed.

End DtypeFacts.

(** A tracker begun without a file that can be read keeps its dates and
    amounts in columns of dtype object, whatever is added.  Once its
    ledger is not empty, the spending summary raises, the category
    analysis raises, and the filter menu shows no table of records. *)
Theorem tracker_without_file_shows_nothing {L : Library} (self : tracker)
    (ledger_dtypes : dtypes) :
  reached_from None self ledger_dtypes ->
  is_empty (expense_data self) = false ->
  display_spending_summary self ledger_dtypes = SummaryRaises
  /\ analyze_categories self ledger_dtypes = AnalysisRaises
  /\ forall i records,
       ~ In (Showed records) (show_filter_menu self ledger_dtypes i).
Proof.
  intros Hr Hne. rewrite (DtypeFacts.reached_dtypes _ _ _ Hr).
  cbn [load_dtypes]. split; [|split].
  - unfold display_spending_summary. now rewrite Hne.
  - unfold analyze_categories. rewrite Hne. cbn [Amount_is_numeric].
    pose proof (DtypeFacts.without_file_categories _ _ Hr) as Hc.
    destruct (rows (expense_data self)) as [|e r] eqn:Er.
    { unfold is_empty in Hne. rewrite Er in Hne.
      destruct (columns (expense_data self)); discriminate. }
    apply Forall_cons in Hc as [Hc _].
    destruct (Category e) as [c|] eqn:Ec; [|contradiction].
    pose proof (DtypeFacts.group_of_record (e :: r) e c
                  (or_introl eq_refl) Ec) as Hg.
    now destruct (groupby_Category (e :: r)).
  - intros i records. unfold show_filter_menu.
    intros H. apply in_app_or in H as [H|H].
    { cbn in H. decompose [or] H; try discriminate; contradiction. }
    destruct (if String.eqb (PyStr.strip (typed_filter_choice i)) "1"
              then _ else _) as [[[f printed] self']|].
    + apply in_app_or in H as [H|H].
      * exact (DtypeFacts.not_shown_in_lines _ _ H).
      * cbn [new_DataFrame_dtypes Date_is_datetime64] in H.
        destruct (is_empty f); cbn in H; decompose [or] H;
          try discriminate; contradiction.
    + cbn in H. decompose [or] H; try discriminate; contradiction.
Qed.

(** One expense added to a tracker begun without a file. *)
Lemma tracker_without_file_shows_nothing_witness :
  let self :=
    fst (add_new_expense (L := Reference.library)
           (tracker_init (L := Reference.library) None) example_inputs) in
  let ledger_dtypes :=
    add_dtypes (L := Reference.library)
      (tracker_init (L := Reference.library) None) example_inputs
      (load_dtypes None) in
  reached_from (L := Reference.library) None self ledger_dtypes
  /\ is_empty (expense_data self) = false
  /\ display_spending_summary (L := Reference.library) self ledger_dtypes
     = SummaryRaises
  /\ analyze_categories (L := Reference.library) self ledger_dtypes
     = AnalysisRaises
  /\ show_filter_menu self ledger_dtypes (mkmenu "2" "" "" "")
     = (filter_menu_heading ++ [MenuRaises])%list.
Proof.
  intros self ledger_dtypes.
  assert (Hr : reached_from (L := Reference.library) None self ledger_dtypes)
    by (apply reached_add, reached_init).
  destruct (tracker_without_file_shows_nothing (L := Reference.library)
              self ledger_dtypes Hr eq_refl) as (Hs & Ha & _).
  split; [exact Hr|]. split; [reflexivity|].
  split; [exact Hs|]. split; [exact Ha|]. reflexivity.
Defined.

(** ** The path of the ledger file *)

Module OsPathFacts.

Lemma append_nil (b : string) : ("" ++ b)%string = b.
Proof. reflexivity. Qed.

Lemma append_cons c (a b : string) :
  (String c a ++ b)%string = String c (a ++ b)%string.
Proof. reflexivity. Qed.

Lemma append_assoc (a b c : string) : ((a ++ b) ++ c = a ++ (b ++ c))%string.
Proof.
  induction a as [|x a IH]; [reflexivity|].
  rewrite !append_cons. now rewrite IH.
Qed.

Lemma has_sep_app a b :
  OsPath.has_sep (a ++ b) = OsPath.has_sep a || OsPath.has_sep b.
Proof.
  induction a as [|x a IH]; [reflexivity|].
  rewrite ?append_cons, ?append_nil; cbn [OsPath.has_sep]. rewrite IH. apply orb_assoc.
Qed.

Lemma basename_no_sep p : OsPath.has_sep (OsPath.basename p) = false.
Proof.
  induction p as [|c r IH]; [reflexivity|].
  cbn [OsPath.basename]. destruct (OsPath.has_sep (String c r)) eqn:E; assumption.
Qed.

Lemma basename_id n : OsPath.has_sep n = false -> OsPath.basename n = n.
Proof. destruct n as [|c r]; [reflexivity|]. intros H. cbn [OsPath.basename]. now rewrite H. Qed.

Lemma basename_after_sep a n :
  OsPath.has_sep n = false -> OsPath.basename (a ++ String "/" n) = n.
Proof.
  intros Hn. induction a as [|c a IH].
  - rewrite ?append_cons, ?append_nil; cbn [OsPath.basename OsPath.has_sep].
    change (Ascii.eqb "/" "/") with true. cbn [orb].
    now apply basename_id.
  - rewrite ?append_cons, ?append_nil; cbn [OsPath.basename].
    replace (OsPath.has_sep (String c (a ++ String "/" n))) with true; [exact IH|].
    symmetry. cbn [OsPath.has_sep]. rewrite has_sep_app.
    cbn [OsPath.has_sep]. change (Ascii.eqb "/" "/") with true.
    cbn [orb]. now rewrite !orb_true_r.
Qed.

Lemma endswith_app s suffix : OsPath.endswith (s ++ suffix) suffix = true.
Proof.
  induction s as [|c s IH].
  - destruct suffix; rewrite ?append_cons, ?append_nil; cbn [OsPath.endswith];
      now rewrite String.eqb_refl.
  - rewrite ?append_cons, ?append_nil; cbn [OsPath.endswith]. rewrite IH. apply orb_true_r.
Qed.

Lemma endswith_split s suffix :
  OsPath.endswith s suffix = true -> exists a, s = (a ++ suffix)%string.
Proof.
  induction s as [|c s IH]; cbn [OsPath.endswith]; intros H.
  - rewrite orb_false_r in H. apply String.eqb_eq in H. now exists "".
  - apply orb_true_iff in H as [H|H].
    + apply String.eqb_eq in H. now exists "".
    + destruct (IH H) as [a ->]. now exists (String c a).
Qed.

Lemma join_no_sep a n :
  OsPath.has_sep n = false ->
  OsPath.join a n = (a ++ n)%string
  \/ OsPath.join a n = (a ++ String "/" n)%string.
Proof.
  intros Hn. unfold OsPath.join.
  assert (E : forall r, n <> String "/" r).
  { intros r ->. cbn [OsPath.has_sep] in Hn.
    change (Ascii.eqb "/" "/") with true in Hn. discriminate. }
  destruct (negb (PyStr.nonempty a) || OsPath.endswith a "/");
    destruct n as [|[[] [] [] [] [] [] [] []] r]; auto;
    now destruct (E r).
Qed.

(** The name that is joined to the directory is what [basename] gives
    back. *)
Lemma basename_join a n :
  OsPath.has_sep n = false -> OsPath.basename (OsPath.join a n) = n.
Proof.
  intros Hn. unfold OsPath.join.
  assert (E : forall r, n <> String "/" r).
  { intros r ->. cbn [OsPath.has_sep] in Hn.
    change (Ascii.eqb "/" "/") with true in Hn. discriminate. }
  assert (J : OsPath.basename
                (if negb (PyStr.nonempty a) || OsPath.endswith a "/"
                 then (a ++ n)%string else (a ++ String "/" n)%string) = n).
  { destruct a as [|c a].
    - cbn. now apply basename_id.
    - cbn [PyStr.nonempty negb orb].
      destruct (OsPath.endswith (String c a) "/") eqn:Ha.
      + destruct (endswith_split _ _ Ha) as [a' ->].
        rewrite append_assoc. now apply basename_after_sep.
      + now apply basename_after_sep. }
  destruct n as [|[[] [] [] [] [] [] [] []] r]; try exact J.
  now destruct (E r).
Qed.

(** The cleaned file name: no separator, not empty, ends in ".csv". *)
Lemma clean_file_name p :
  let name :=
    match OsPath.basename p with EmptyString => "expenses.csv" | n => n end in
  let name' :=
    if OsPath.endswith name ".csv" then name else (name ++ ".csv")%string in
  OsPath.has_sep name' = false
  /\ OsPath.endswith name' ".csv" = true
  /\ name' <> "".
Proof.
  intros name name'.
  assert (Hname : OsPath.has_sep name = false /\ name <> "").
  { subst name. pose proof (basename_no_sep p) as H.
    destruct (OsPath.basename p); [split; [reflexivity|discriminate]|].
    split; [exact H|discriminate]. }
  destruct Hname as [Hs Hn]. subst name'.
  destruct (OsPath.endswith name ".csv") eqn:E.
  - auto.
  - split; [|split].
    + rewrite has_sep_app, Hs. reflexivity.
    + apply endswith_app.
    + destruct name; [congruence|discriminate].
Qed.

End OsPathFacts.

(** The path of the ledger file is the directory joined with one file
    name: the name has no "/" in it, ends in ".csv", and is what
    [basename] gives back from the path; the path is the directory
    followed by the name, with a "/" between them unless the directory
    is empty or ends in one. Making the path safe a second time changes
    nothing. *)
Theorem make_safe_file_path_one_csv_name (SAFE_DIRECTORY file_path : string) :
  let path := make_safe_file_path SAFE_DIRECTORY file_path in
  let name := OsPath.basename path in
  OsPath.has_sep name = false
  /\ name <> ""
  /\ OsPath.endswith name ".csv" = true
  /\ (path = (SAFE_DIRECTORY ++ name)%string
      \/ path = (SAFE_DIRECTORY ++ String "/" name)%string)
  /\ make_safe_file_path SAFE_DIRECTORY path = path.
Proof.
  intros path name.
  destruct (OsPathFacts.clean_file_name file_path) as (Hs & He & Hn).
  unfold make_safe_file_path in path.
  set (n0 := match OsPath.basename file_path with
             | EmptyString => "expenses.csv"
             | n => n
             end) in *.
  set (n1 := if OsPath.endswith n0 ".csv" then n0 else (n0 ++ ".csv")%string) in *.
  assert (Hb : name = n1) by (apply OsPathFacts.basename_join, Hs).
  rewrite Hb. repeat split; try assumption.
  - apply OsPathFacts.join_no_sep, Hs.
  - unfold make_safe_file_path. fold name. rewrite Hb.
    destruct n1 as [|c r]; [congruence|].
    rewrite He. reflexivity.
Qed.
